(** * Code-location target resolution of dagster's CLI

    A shallow embedding of
    [python_modules/dagster/dagster/cli/workspace/cli_target.py]:
    the resolver that turns the flat option map produced by click into a
    workspace load target, the construction of code pointers and repository
    origins, and the "none / one / many" selection of a repository location,
    a repository and a pipeline.

    Conventions of the embedding:
    - a Python value that can sit in the option map is a [pyval]; the map
      itself is a [gmap string pyval] and [kwargs.get(key)] is [kwargs_get];
    - a function that can raise returns [exn + A], [inl] being the raised
      exception;
    - a Python [str] is a [string] over 8-bit characters;
    - what the module reads from its host (current directory, file system,
      interpreter path, the loader of definitions, [str()] of a value that is
      not a string) is a [Variable] of section [Host]. *)

From Stdlib Require Import ZArith String Ascii List.
From stdpp Require Import base option list strings gmap fin_maps sorting.

Local Open Scope string_scope.

(** ** Python values and exceptions *)

Inductive pyval : Type :=
| VNone
| VBool (b : bool)
| VInt (z : Z)
| VStr (s : string)
| VTuple (items : list string).

(** Truth value of a Python object: [None], [False], [0], the empty string and
    the empty tuple are false. *)
Definition truthy (v : pyval) : bool :=
  match v with
  | VNone => false
  | VBool b => b
  | VInt z => negb (Z.eqb z 0)
  | VStr s => match s with EmptyString => false | String _ _ => true end
  | VTuple items => match items with [] => false | _ :: _ => true end
  end.

(** [kwargs.get(key)]: the value stored under [key], [None] when there is none. *)
Definition kwargs_get (kwargs : gmap string pyval) (key : string) : pyval :=
  default VNone (kwargs !! key).

(** The exceptions the module raises or lets through.  [UsageError] is click's;
    [CheckError] is raised by [dagster.check] and carries the description given
    at the call site. *)
Inductive exn : Type :=
| UsageError (msg : string)
| CheckError (desc : option string)
| TypeError (what : string)
| KeyError (key : string)
| IndexError
| StopIteration.

Definition raise {A} (e : exn) : exn + A := inl e.
Definition ret {A} (a : A) : exn + A := inr a.
Definition bind {A B} (m : exn + A) (k : A -> exn + B) : exn + B :=
  match m with
  | inl e => inl e
  | inr a => k a
  end.

Notation "'let*' x ':=' m 'in' k" := (bind m (fun x => k))
  (at level 10, x name, m at level 100, k at level 200).

(** The double-quote character, used inside several messages. *)
Definition dq : string := String (ascii_of_nat 34) EmptyString.

(** ** Guards on the option map *)

Definition INVALID_CLI_ARGUMENTS : string :=
  "Invalid set of CLI arguments for loading repository/pipeline. See --help for details.".

(** [_cli_load_invariant(condition, msg=None)]; [msg or default] takes the
    default for [None] and for the empty string. *)
Definition _cli_load_invariant (condition : bool) (msg : option string) : exn + unit :=
  let msg :=
    match msg with
    | Some (String c s) => String c s
    | _ => INVALID_CLI_ARGUMENTS
    end in
  if negb condition then raise (UsageError msg) else ret tt.

Fixpoint _check_cli_arguments_none (kwargs : gmap string pyval) (keys : list string)
  : exn + unit :=
  match keys with
  | [] => ret tt
  | key :: keys =>
      let* _ := _cli_load_invariant (negb (truthy (kwargs_get kwargs key))) None in
      _check_cli_arguments_none kwargs keys
  end.

Fixpoint are_all_keys_empty (kwargs : gmap string pyval) (keys : list string) : bool :=
  match keys with
  | [] => true
  | key :: keys =>
      if truthy (kwargs_get kwargs key) then false
      else are_all_keys_empty kwargs keys
  end.

Definition WORKSPACE_CLI_ARGS : list string :=
  [ "workspace"; "python_file"; "working_directory"; "empty_working_directory";
    "package_name"; "module_name"; "attribute"; "repository_yaml";
    "grpc_host"; "grpc_port"; "grpc_socket" ].

(** ** Load targets, code pointers, origins *)

(** Modelled from the spec: the load-target classes of
    [dagster.core.workspace.load_target] (the tagged variant LoadTarget of the
    data model); the fields are those of the constructor calls in
    [created_workspace_load_target]. *)
Inductive WorkspaceLoadTarget : Type :=
| EmptyWorkspaceTarget
| WorkspaceFileTarget (paths : list string)
| PythonFileTarget (python_file attribute working_directory location_name : pyval)
| ModuleTarget (module_name attribute location_name : pyval)
| PackageTarget (package_name attribute location_name : pyval)
| GrpcServerTarget (port socket host location_name : pyval).

(** Modelled from the spec: [dagster.core.code_pointer.CodePointer], one of
    file+attribute+workdir, module+attribute, package+attribute; the three
    constructors stand for [from_python_file], [from_module] and
    [from_python_package]. *)
Inductive CodePointer : Type :=
| FileCodePointer (python_file fn_name working_directory : pyval)
| ModuleCodePointer (module fn_name : pyval)
| PackageCodePointer (module attribute : pyval).

(** Modelled from the spec: [RepositoryPythonOrigin], the executable identity
    together with a code pointer. *)
Record RepositoryPythonOrigin : Type := {
  executable_path : string;
  code_pointer : CodePointer
}.

(** [list(x)] for the values the option map can hold. *)
Definition py_list (v : pyval) : exn + list string :=
  match v with
  | VTuple items => ret items
  | VStr s => ret ((fun c => String c EmptyString) <$> list_ascii_of_string s)
  | VNone => raise (TypeError "'NoneType' object is not iterable")
  | VBool _ => raise (TypeError "'bool' object is not iterable")
  | VInt _ => raise (TypeError "'int' object is not iterable")
  end.

(** [kwargs[key]] *)
Definition kwargs_item (kwargs : gmap string pyval) (key : string) : exn + pyval :=
  match kwargs !! key with
  | Some v => ret v
  | None => raise (KeyError key)
  end.

(** ** Rendering of candidate names *)

(** Python's [sorted] on strings: ascending in the lexicographic order of the
    characters. *)
Definition sorted (strings : list string) : list string :=
  merge_sort String.le strings.

Definition _sorted_quoted (strings : list string) : string :=
  "[" +:+ String.concat ", " ((fun s => "'" +:+ s +:+ "'") <$> sorted strings) +:+ "]".

(** [len(d)], [d.keys()], and [next(iter(d.values()))] of a dictionary. *)
Definition dict_len {V} (d : gmap string V) : nat := size d.
Definition dict_keys {V} (d : gmap string V) : list string := (map_to_list d).*1.
Definition dict_first_value {V} (d : gmap string V) : exn + V :=
  match (map_to_list d).*2 with
  | v :: _ => ret v
  | [] => raise StopIteration
  end.
(** [d[key]] *)
Definition dict_item {V} (d : gmap string V) (key : string) : exn + V :=
  match d !! key with
  | Some v => ret v
  | None => raise (KeyError key)
  end.
(** [{key(x): value(x) for x in xs}]: entries are written in the order of
    [xs], a later write to a key replacing the earlier one. *)
Definition dict_comprehension {X V} (key : X -> string) (value : X -> V) (xs : list X)
  : gmap string V :=
  foldl (fun d x => <[key x := value x]> d) ∅ xs.

(** ** The live workspace *)

(** Modelled from the spec: a workload (pipeline) of a repository.  Of
    [ExternalPipeline] the module reads the name only; [pipeline_handle]
    stands for the rest of the object. *)
Record ExternalPipeline : Type := {
  pipeline_name : string;
  pipeline_handle : string
}.

(** Modelled from the spec: a loaded repository, its name and its workloads
    ([get_all_external_pipelines]). *)
Record ExternalRepository : Type := {
  repository_name : string;
  get_all_external_pipelines : list ExternalPipeline
}.

(** Modelled from the spec: a repository location, its name and the mapping
    of repository name to repository ([get_repositories]). *)
Record RepositoryLocation : Type := {
  location_name : string;
  get_repositories : gmap string ExternalRepository
}.

(** Modelled from the spec: the state of one location of a workspace, loaded
    or failed with the text of its load error. *)
Inductive LocationEntry : Type :=
| LocationLoaded (repository_location : RepositoryLocation)
| LocationFailed (load_error : string).

(** Modelled from the spec: [WorkspaceRequestContext], the named locations of
    an open workspace, each with its success or error state; names are
    unique, and a failed location is still enumerated. *)
Record WorkspaceRequestContext : Type := {
  workspace_snapshot : gmap string LocationEntry
}.

Definition repository_location_names (workspace : WorkspaceRequestContext) : list string :=
  (map_to_list (workspace_snapshot workspace)).*1.

(** [str(workspace.get_repository_location_error(name))], [None] for a
    location that loaded. *)
Definition get_repository_location_error (workspace : WorkspaceRequestContext)
  (name : string) : exn + option string :=
  match workspace_snapshot workspace !! name with
  | None => raise (KeyError name)
  | Some (LocationLoaded _) => ret None
  | Some (LocationFailed load_error) => ret (Some load_error)
  end.

Definition has_repository_location_error (workspace : WorkspaceRequestContext)
  (name : string) : exn + bool :=
  let* error := get_repository_location_error workspace name in
  ret (bool_decide (is_Some error)).

Definition get_repository_location (workspace : WorkspaceRequestContext)
  (name : string) : exn + RepositoryLocation :=
  match workspace_snapshot workspace !! name with
  | None => raise (KeyError name)
  | Some (LocationLoaded repository_location) => ret repository_location
  | Some (LocationFailed _) => raise (TypeError "location failed to load")
  end.

(** Modelled from the spec: what [get_pipeline_python_origin_from_kwargs]
    reads of the repository definition that a reconstructable repository
    yields, its name and the names of its pipelines. *)
Record RepositoryDefinition : Type := {
  definition_name : string;
  definition_pipeline_names : list string
}.

(** Modelled from the spec: [PipelinePythonOrigin], a workload name together
    with the origin of its repository.  The name field holds the value the
    function stores, a member of the set of names or the [pipeline] option. *)
Record PipelinePythonOrigin : Type := {
  origin_pipeline_name : pyval;
  repository_origin : RepositoryPythonOrigin
}.

(** [check.opt_str_param(obj, param_name)] *)
Definition check_opt_str_param (obj : pyval) (param_name : string) : exn + unit :=
  match obj with
  | VNone | VStr _ => ret tt
  | _ => raise (CheckError (Some param_name))
  end.

(** ** The resolver and the origin builder *)

Section Host.

(** [os.getcwd()] *)
Variable cwd : string.
(** [os.path.exists], relative paths being taken from the current directory *)
Variable path_exists : string -> bool.
(** [sys.executable] *)
Variable sys_executable : string.
(** [str(v)] of a value that is not a string, as [format] renders it *)
Variable py_str : pyval -> string.

(** A loadable target as [dagster.grpc.utils.get_loadable_targets] returns
    it: the attribute under which the definition was found and the
    definition.  Of the definition only the name of the repository that
    [repository_def_from_target_def] makes of it is read. *)
Variable TargetDefinition : Type.
Variable repository_def_from_target_def_name : TargetDefinition -> string.

Record LoadableTarget : Type := {
  attribute : string;
  target_definition : TargetDefinition
}.

(** [get_loadable_targets(python_file, module_name, package_name,
    working_directory, attribute)]: imports the code, so it may raise. *)
Variable get_loadable_targets :
  pyval -> pyval -> pyval -> pyval -> pyval -> exn + list LoadableTarget.

Definition py_format (v : pyval) : string :=
  match v with
  | VStr s => s
  | _ => py_str v
  end.

Definition get_working_directory_from_kwargs (kwargs : gmap string pyval) : pyval :=
  if truthy (kwargs_get kwargs "empty_working_directory") then VNone
  else if truthy (kwargs_get kwargs "working_directory")
       then kwargs_get kwargs "working_directory"
       else VStr cwd.

Definition created_workspace_load_target (kwargs : gmap string pyval)
  : exn + WorkspaceLoadTarget :=
  if are_all_keys_empty kwargs WORKSPACE_CLI_ARGS then
    if truthy (kwargs_get kwargs "empty_workspace") then ret EmptyWorkspaceTarget
    else if path_exists "workspace.yaml" then ret (WorkspaceFileTarget ["workspace.yaml"])
    else raise (UsageError "No arguments given and workspace.yaml not found.")
  else if truthy (kwargs_get kwargs "workspace") then
    let* _ := _check_cli_arguments_none kwargs
                [ "python_file"; "working_directory"; "empty_working_directory";
                  "module_name"; "package_name"; "attribute";
                  "grpc_host"; "grpc_port"; "grpc_socket" ] in
    let* item := kwargs_item kwargs "workspace" in
    let* paths := py_list item in
    ret (WorkspaceFileTarget paths)
  else if truthy (kwargs_get kwargs "python_file") then
    let* _ := _check_cli_arguments_none kwargs
                [ "module_name"; "package_name";
                  "grpc_host"; "grpc_port"; "grpc_socket" ] in
    let working_directory := get_working_directory_from_kwargs kwargs in
    ret (PythonFileTarget (kwargs_get kwargs "python_file")
                          (kwargs_get kwargs "attribute")
                          working_directory
                          VNone)
  else if truthy (kwargs_get kwargs "module_name") then
    let* _ := _check_cli_arguments_none kwargs
                [ "package_name"; "working_directory"; "empty_working_directory";
                  "grpc_host"; "grpc_port"; "grpc_socket" ] in
    ret (ModuleTarget (kwargs_get kwargs "module_name")
                      (kwargs_get kwargs "attribute")
                      VNone)
  else if truthy (kwargs_get kwargs "package_name") then
    let* _ := _check_cli_arguments_none kwargs
                [ "working_directory"; "empty_working_directory";
                  "grpc_host"; "grpc_port"; "grpc_socket" ] in
    ret (PackageTarget (kwargs_get kwargs "package_name")
                       (kwargs_get kwargs "attribute")
                       VNone)
  else if truthy (kwargs_get kwargs "grpc_port") then
    let* _ := _check_cli_arguments_none kwargs
                [ "attribute"; "working_directory"; "empty_working_directory";
                  "grpc_socket" ] in
    ret (GrpcServerTarget (kwargs_get kwargs "grpc_port")
                          VNone
                          (if truthy (kwargs_get kwargs "grpc_host")
                           then kwargs_get kwargs "grpc_host"
                           else VStr "localhost")
                          VNone)
  else if truthy (kwargs_get kwargs "grpc_socket") then
    let* _ := _check_cli_arguments_none kwargs
                [ "attribute"; "working_directory"; "empty_working_directory" ] in
    ret (GrpcServerTarget VNone
                          (kwargs_get kwargs "grpc_socket")
                          (if truthy (kwargs_get kwargs "grpc_host")
                           then kwargs_get kwargs "grpc_host"
                           else VStr "localhost")
                          VNone)
  else
    (* [_cli_load_invariant(False)] always raises; the implicit
       [return None] that follows it in the source is never reached. *)
    let* _ := _cli_load_invariant false None in
    raise (TypeError "created_workspace_load_target returned None").

(** [check.failed(desc)] *)
Definition check_failed {A} (desc : string) : exn + A :=
  raise (CheckError (Some desc)).

(** [check.invariant(condition, desc)] *)
Definition check_invariant (condition : bool) (desc : option string) : exn + unit :=
  if condition then ret tt else raise (CheckError desc).

Definition _get_code_pointer_dict_from_kwargs (kwargs : gmap string pyval)
  : exn + gmap string CodePointer :=
  let python_file := kwargs_get kwargs "python_file" in
  let module_name := kwargs_get kwargs "module_name" in
  let package_name := kwargs_get kwargs "package_name" in
  let working_directory := get_working_directory_from_kwargs kwargs in
  let attribute_ := kwargs_get kwargs "attribute" in
  let repo_name (loadable_target : LoadableTarget) :=
    repository_def_from_target_def_name (target_definition loadable_target) in
  if truthy python_file then
    let* _ := _check_cli_arguments_none kwargs [ "module_name"; "package_name" ] in
    let* targets :=
      get_loadable_targets python_file module_name package_name
                           working_directory attribute_ in
    ret (dict_comprehension repo_name
           (fun loadable_target =>
              FileCodePointer python_file (VStr (attribute loadable_target))
                              working_directory)
           targets)
  else if truthy module_name then
    let* _ := _check_cli_arguments_none kwargs
                [ "python_file"; "working_directory"; "package_name" ] in
    let* targets :=
      get_loadable_targets python_file module_name package_name
                           working_directory attribute_ in
    ret (dict_comprehension repo_name
           (fun loadable_target =>
              ModuleCodePointer module_name (VStr (attribute loadable_target)))
           targets)
  else if truthy package_name then
    let* _ := _check_cli_arguments_none kwargs
                [ "module_name"; "python_file"; "working_directory" ] in
    let* targets :=
      get_loadable_targets python_file module_name package_name
                           working_directory attribute_ in
    ret (dict_comprehension repo_name
           (fun loadable_target =>
              PackageCodePointer package_name (VStr (attribute loadable_target)))
           targets)
  else check_failed "Must specify a Python file or module name".

(** [key in d] for a dictionary keyed by strings: a value that is not a
    string equals no key. *)
Definition py_in_dict {V} (key : pyval) (d : gmap string V) : bool :=
  match key with
  | VStr s => bool_decide (is_Some (d !! s))
  | _ => false
  end.

(** [d[key]] for a key that was read from the option map *)
Definition py_dict_item {V} (d : gmap string V) (key : pyval) : exn + V :=
  match key with
  | VStr s => dict_item d s
  | _ => raise (KeyError (py_format key))
  end.

Definition is_none (v : pyval) : bool :=
  match v with
  | VNone => true
  | _ => false
  end.

Definition get_repository_python_origin_from_kwargs (kwargs : gmap string pyval)
  : exn + RepositoryPythonOrigin :=
  let provided_repo_name := kwargs_get kwargs "repository" in
  if negb (truthy (kwargs_get kwargs "python_file")
           || truthy (kwargs_get kwargs "module_name")
           || truthy (kwargs_get kwargs "package_name")) then
    raise (UsageError "Must specify a python file or module name")
  else if truthy (kwargs_get kwargs "attribute") && negb (truthy provided_repo_name) then
    let* code_pointer :=
      if truthy (kwargs_get kwargs "python_file") then
        let* _ := _check_cli_arguments_none kwargs [ "module_name"; "package_name" ] in
        ret (FileCodePointer (kwargs_get kwargs "python_file")
                             (kwargs_get kwargs "attribute")
                             (get_working_directory_from_kwargs kwargs))
      else if truthy (kwargs_get kwargs "module_name") then
        let* _ := _check_cli_arguments_none kwargs
                    [ "python_file"; "working_directory"; "package_name" ] in
        ret (ModuleCodePointer (kwargs_get kwargs "module_name")
                               (kwargs_get kwargs "attribute"))
      else if truthy (kwargs_get kwargs "package_name") then
        let* _ := _check_cli_arguments_none kwargs
                    [ "python_file"; "working_directory"; "module_name" ] in
        ret (PackageCodePointer (kwargs_get kwargs "package_name")
                                (kwargs_get kwargs "attribute"))
      else check_failed "Must specify a Python file or module name" in
    ret {| executable_path := sys_executable; code_pointer := code_pointer |}
  else
    let* code_pointer_dict := _get_code_pointer_dict_from_kwargs kwargs in
    let* code_pointer :=
      if is_none provided_repo_name && Nat.eqb (dict_len code_pointer_dict) 1 then
        dict_first_value code_pointer_dict
      else if is_none provided_repo_name then
        raise (UsageError
                 ("Must provide --repository as there is more than one repository. "
                  +:+ "Options are: " +:+ _sorted_quoted (dict_keys code_pointer_dict)
                  +:+ "."))
      else if negb (py_in_dict provided_repo_name code_pointer_dict) then
        raise (UsageError
                 ("Repository " +:+ dq +:+ py_format provided_repo_name +:+ dq
                  +:+ " not found. Found "
                  +:+ _sorted_quoted (dict_keys code_pointer_dict) +:+ " instead."))
      else py_dict_item code_pointer_dict provided_repo_name in
    ret {| executable_path := sys_executable; code_pointer := code_pointer |}.

(** [value in names] for a list of strings. *)
Definition py_in_list (value : pyval) (names : list string) : bool :=
  match value with
  | VStr s => bool_decide (s ∈ names)
  | _ => false
  end.

Definition get_repository_location_from_workspace
  (workspace : WorkspaceRequestContext) (provided_location_name : pyval)
  : exn + RepositoryLocation :=
  let names := repository_location_names workspace in
  let* provided_location_name :=
    if is_none provided_location_name then
      if Nat.eqb (length names) 1 then
        match names with
        | name :: _ => ret (VStr name)
        | [] => raise IndexError
        end
      else if Nat.eqb (length names) 0 then
        raise (UsageError "No locations found in workspace")
      else if is_none provided_location_name then
        raise (UsageError
                 ("Must provide --location as there are multiple locations "
                  +:+ "available. Options are: " +:+ _sorted_quoted names))
      else ret provided_location_name
    else ret provided_location_name in
  if negb (py_in_list provided_location_name names) then
    raise (UsageError
             ("Location " +:+ dq +:+ py_format provided_location_name +:+ dq
              +:+ " not found in workspace. Found " +:+ _sorted_quoted names
              +:+ " instead."))
  else
    match provided_location_name with
    | VStr name =>
        let* failed := has_repository_location_error workspace name in
        if failed then
          let* error := get_repository_location_error workspace name in
          raise (UsageError
                   ("Error loading location " +:+ dq +:+ name +:+ dq +:+ ": "
                    +:+ default "None" error))
        else get_repository_location workspace name
    | _ => raise (KeyError (py_format provided_location_name))
    end.

(** Modelled from the spec: [RepositoryLocation.has_repository] and
    [RepositoryLocation.get_repository], membership and lookup in the mapping
    of repository name to repository. *)
Definition has_repository (repo_location : RepositoryLocation) (name : pyval) : bool :=
  py_in_dict name (get_repositories repo_location).

Definition get_repository (repo_location : RepositoryLocation) (name : pyval)
  : exn + ExternalRepository :=
  py_dict_item (get_repositories repo_location) name.

Definition get_external_repository_from_repo_location
  (repo_location : RepositoryLocation) (provided_repo_name : pyval)
  : exn + ExternalRepository :=
  let* _ := check_opt_str_param provided_repo_name "provided_repo_name" in
  let repo_dict := get_repositories repo_location in
  let* _ := check_invariant (negb (Nat.eqb (dict_len repo_dict) 0))
                            (Some "There should be at least one repo.") in
  if is_none provided_repo_name && Nat.eqb (dict_len repo_dict) 1 then
    dict_first_value repo_dict
  else if is_none provided_repo_name then
    raise (UsageError
             ("Must provide --repository as there is more than one repository "
              +:+ "in " +:+ location_name repo_location +:+ ". Options are: "
              +:+ _sorted_quoted (dict_keys repo_dict) +:+ "."))
  else if negb (has_repository repo_location provided_repo_name) then
    raise (UsageError
             ("Repository " +:+ dq +:+ py_format provided_repo_name +:+ dq
              +:+ " not found in location " +:+ dq +:+ location_name repo_location
              +:+ dq +:+ ". Found " +:+ _sorted_quoted (dict_keys repo_dict)
              +:+ " instead."))
  else get_repository repo_location provided_repo_name.

Definition get_external_pipeline_from_external_repo
  (external_repo : ExternalRepository) (provided_pipeline_name : pyval)
  : exn + ExternalPipeline :=
  let* _ := check_opt_str_param provided_pipeline_name "provided_pipeline_name" in
  let external_pipelines :=
    dict_comprehension pipeline_name (fun ep => ep)
                       (get_all_external_pipelines external_repo) in
  let* _ := check_invariant (negb (Nat.eqb (dict_len external_pipelines) 0)) None in
  if is_none provided_pipeline_name && Nat.eqb (dict_len external_pipelines) 1 then
    dict_first_value external_pipelines
  else if is_none provided_pipeline_name then
    raise (UsageError
             ("Must provide --pipeline as there is more than one pipeline "
              +:+ "in " +:+ repository_name external_repo +:+ ". Options are: "
              +:+ _sorted_quoted (dict_keys external_pipelines) +:+ "."))
  else if negb (py_in_dict provided_pipeline_name external_pipelines) then
    raise (UsageError
             ("Pipeline " +:+ dq +:+ py_format provided_pipeline_name +:+ dq
              +:+ " not found in repository " +:+ dq +:+ repository_name external_repo
              +:+ dq +:+ ". Found " +:+ _sorted_quoted (dict_keys external_pipelines)
              +:+ " instead."))
  else py_dict_item external_pipelines provided_pipeline_name.

(** [WorkspaceProcessContext(instance, target).create_request_context()]:
    opening the workspace that a load target describes. *)
Variable create_request_context :
  WorkspaceLoadTarget -> exn + WorkspaceRequestContext.

(** The context managers below hold the workspace open while their caller
    runs; an exception raised before the [yield] leaves the [with] block
    without running the rest of it, which is what [bind] does. *)
Definition get_workspace_from_kwargs (kwargs : gmap string pyval)
  : exn + WorkspaceRequestContext :=
  let* target := created_workspace_load_target kwargs in
  create_request_context target.

Definition get_repository_location_from_kwargs (kwargs : gmap string pyval)
  : exn + RepositoryLocation :=
  let* workspace := get_workspace_from_kwargs kwargs in
  get_repository_location_from_workspace workspace (kwargs_get kwargs "location").

Definition get_external_repository_from_kwargs (kwargs : gmap string pyval)
  : exn + ExternalRepository :=
  let* repo_location := get_repository_location_from_kwargs kwargs in
  let provided_repo_name := kwargs_get kwargs "repository" in
  get_external_repository_from_repo_location repo_location provided_repo_name.

Definition get_external_pipeline_from_kwargs (kwargs : gmap string pyval)
  : exn + ExternalPipeline :=
  let* external_repo := get_external_repository_from_kwargs kwargs in
  let provided_pipeline_name := kwargs_get kwargs "pipeline" in
  get_external_pipeline_from_external_repo external_repo provided_pipeline_name.

(** [recon_repository_from_origin(origin).get_definition()]: loads the code
    the origin points to, so it may raise. *)
Variable get_definition : RepositoryPythonOrigin -> exn + RepositoryDefinition.

(** [value in names] for a set of strings. *)
Definition py_in_set (value : pyval) (names : gset string) : bool :=
  match value with
  | VStr s => bool_decide (s ∈ names)
  | _ => false
  end.

(** [next(iter(names))] of a set *)
Definition set_first (names : gset string) : exn + string :=
  match elements names with
  | name :: _ => ret name
  | [] => raise StopIteration
  end.

Definition get_pipeline_python_origin_from_kwargs (kwargs : gmap string pyval)
  : exn + PipelinePythonOrigin :=
  let* repository_origin := get_repository_python_origin_from_kwargs kwargs in
  let provided_pipeline_name := kwargs_get kwargs "pipeline" in
  let* repo_definition := get_definition repository_origin in
  let pipeline_names : gset string :=
    list_to_set (definition_pipeline_names repo_definition) in
  let* pipeline_name :=
    if is_none provided_pipeline_name && Nat.eqb (size pipeline_names) 1 then
      let* name := set_first pipeline_names in ret (VStr name)
    else if is_none provided_pipeline_name then
      raise (UsageError
               ("Must provide --pipeline as there is more than one pipeline "
                +:+ "in " +:+ definition_name repo_definition +:+ ". Options are: "
                +:+ _sorted_quoted (elements pipeline_names) +:+ "."))
    else if negb (py_in_set provided_pipeline_name pipeline_names) then
      raise (UsageError
               ("Pipeline " +:+ dq +:+ py_format provided_pipeline_name +:+ dq
                +:+ " not found in repository " +:+ dq
                +:+ definition_name repo_definition +:+ dq +:+ ". Found "
                +:+ _sorted_quoted (elements pipeline_names) +:+ " instead."))
    else ret provided_pipeline_name in
  ret {| origin_pipeline_name := pipeline_name;
         repository_origin := repository_origin |}.

End Host.

Arguments attribute {TargetDefinition} _.
Arguments target_definition {TargetDefinition} _.
Arguments Build_LoadableTarget {TargetDefinition} _ _.

(** ** Specification-side vocabulary *)

(** An option is given when the value stored under it is true in Python's
    sense; this is the test every branch of the module applies. *)
Definition is_set (kwargs : gmap string pyval) (key : string) : Prop :=
  truthy (kwargs_get kwargs key) = true.

(** The options that select a branch of the resolution order, by priority. *)
Definition governing_options : list string :=
  [ "workspace"; "python_file"; "module_name"; "package_name";
    "grpc_port"; "grpc_socket" ].

(** The governing option of an option map: the first one given. *)
Definition governing_option (kwargs : gmap string pyval) : option string :=
  List.find (fun key => truthy (kwargs_get kwargs key)) governing_options.

(** The options that must be absent next to a governing option, in the words
    of the resolution order (rules 2 to 7 of the load-target resolver). *)
Definition spec_exclusions (governing : string) : list string :=
  if String.eqb governing "workspace" then
    [ "python_file"; "working_directory"; "empty_working_directory"; "module_name";
      "package_name"; "attribute"; "grpc_host"; "grpc_port"; "grpc_socket" ]
  else if String.eqb governing "python_file" then
    [ "module_name"; "package_name"; "grpc_port"; "grpc_socket" ]
  else if String.eqb governing "module_name" then
    [ "package_name"; "working_directory"; "empty_working_directory";
      "grpc_port"; "grpc_socket" ]
  else if String.eqb governing "package_name" then
    [ "working_directory"; "empty_working_directory"; "grpc_port"; "grpc_socket" ]
  else if String.eqb governing "grpc_port" then
    [ "attribute"; "working_directory"; "empty_working_directory"; "grpc_socket" ]
  else if String.eqb governing "grpc_socket" then
    [ "attribute"; "working_directory"; "empty_working_directory" ]
  else [].

(** The rendering of a list of names that the messages promise: the names
    single-quoted, separated by a comma and a space, between square
    brackets. *)
Fixpoint spec_render_items (names : list string) : string :=
  match names with
  | [] => EmptyString
  | [name] => "'" +:+ name +:+ "'"
  | name :: rest => "'" +:+ name +:+ "', " +:+ spec_render_items rest
  end.

Definition spec_render (names : list string) : string :=
  "[" +:+ spec_render_items names +:+ "]".

(** [listed] is exactly the names of the candidates [d], each once, in
    ascending lexicographic order. *)
Definition lists_candidates {V} (listed : list string) (d : gmap string V) : Prop :=
  (forall name, name ∈ listed <-> is_Some (d !! name))
  /\ NoDup listed
  /\ Sorted String.le listed.

(** [listed] is exactly the members of the set [names], each once, in
    ascending lexicographic order. *)
Definition lists_names (listed : list string) (names : gset string) : Prop :=
  (forall name, name ∈ listed <-> name ∈ names)
  /\ NoDup listed
  /\ Sorted String.le listed.

(** The lists of options that [created_workspace_load_target] passes to
    [_check_cli_arguments_none] in the branch of each governing option. *)
Definition checked_next_to (governing : string) : list string :=
  if String.eqb governing "workspace" then
    [ "python_file"; "working_directory"; "empty_working_directory"; "module_name";
      "package_name"; "attribute"; "grpc_host"; "grpc_port"; "grpc_socket" ]
  else if String.eqb governing "python_file" then
    [ "module_name"; "package_name"; "grpc_host"; "grpc_port"; "grpc_socket" ]
  else if String.eqb governing "module_name" then
    [ "package_name"; "working_directory"; "empty_working_directory";
      "grpc_host"; "grpc_port"; "grpc_socket" ]
  else if String.eqb governing "package_name" then
    [ "working_directory"; "empty_working_directory";
      "grpc_host"; "grpc_port"; "grpc_socket" ]
  else if String.eqb governing "grpc_port" then
    [ "attribute"; "working_directory"; "empty_working_directory"; "grpc_socket" ]
  else if String.eqb governing "grpc_socket" then
    [ "attribute"; "working_directory"; "empty_working_directory" ]
  else [].

(** The host of a gRPC server target: the given host, [localhost] without. *)
Definition host_or_localhost (kwargs : gmap string pyval) : pyval :=
  if truthy (kwargs_get kwargs "grpc_host") then kwargs_get kwargs "grpc_host"
  else VStr "localhost".

(** The target that the branch of a governing option builds from the option
    map once its checks have passed; [paths] is the list made of the
    [workspace] option. *)
Definition target_of_branch (cwd : string) (kwargs : gmap string pyval)
  (governing : string) (paths : list string) : WorkspaceLoadTarget :=
  if String.eqb governing "workspace" then WorkspaceFileTarget paths
  else if String.eqb governing "python_file" then
    PythonFileTarget (kwargs_get kwargs "python_file") (kwargs_get kwargs "attribute")
                     (get_working_directory_from_kwargs cwd kwargs) VNone
  else if String.eqb governing "module_name" then
    ModuleTarget (kwargs_get kwargs "module_name") (kwargs_get kwargs "attribute") VNone
  else if String.eqb governing "package_name" then
    PackageTarget (kwargs_get kwargs "package_name") (kwargs_get kwargs "attribute") VNone
  else if String.eqb governing "grpc_port" then
    GrpcServerTarget (kwargs_get kwargs "grpc_port") VNone (host_or_localhost kwargs) VNone
  else
    GrpcServerTarget VNone (kwargs_get kwargs "grpc_socket") (host_or_localhost kwargs)
                     VNone.

(** The code pointer that corresponds to a load target of local code: the
    same file, attribute and working directory, or the same module or
    package and attribute.  The other targets have none. *)
Definition pointer_of_target (target : WorkspaceLoadTarget) : option CodePointer :=
  match target with
  | PythonFileTarget python_file attribute_ working_directory _ =>
      Some (FileCodePointer python_file attribute_ working_directory)
  | ModuleTarget module_name attribute_ _ => Some (ModuleCodePointer module_name attribute_)
  | PackageTarget package_name attribute_ _ =>
      Some (PackageCodePointer package_name attribute_)
  | _ => None
  end.

(** The option map written as a Python dictionary literal. *)
Definition kwargs_of (items : list (string * pyval)) : gmap string pyval :=
  list_to_map items.

(** ** Sample host and inputs *)

Module Sample.

Definition cwd : string := "/home/dagster".
Definition no_file (path : string) : bool := false.
Definition executable : string := "/usr/bin/python3".

Definition py_str (v : pyval) : string :=
  match v with
  | VNone => "None"
  | VBool true => "True"
  | VBool false => "False"
  | VStr s => s
  | _ => "<object>"
  end.

(** A loader for code that cannot be imported. *)
Definition broken_loader (python_file module_name package_name working_directory
                          attribute_ : pyval) : exn + list (LoadableTarget string) :=
  raise (UsageError "No module named 'pkg'").

(** A loader that finds the repository [main_repo] twice, under the
    attributes [first_repo] and [second_repo]. *)
Definition duplicate_loader (python_file module_name package_name working_directory
                             attribute_ : pyval) : exn + list (LoadableTarget string) :=
  ret [ {| attribute := "first_repo"; target_definition := "main_repo" |};
        {| attribute := "second_repo"; target_definition := "main_repo" |} ].

Definition repo_r1 : ExternalRepository :=
  {| repository_name := "r1";
     get_all_external_pipelines :=
       [ {| pipeline_name := "ingest"; pipeline_handle := "r1.ingest" |};
         {| pipeline_name := "train"; pipeline_handle := "r1.train" |} ] |}.

Definition repo_r2 : ExternalRepository :=
  {| repository_name := "r2"; get_all_external_pipelines := [] |}.

Definition two_repositories : RepositoryLocation :=
  {| location_name := "loc1";
     get_repositories := {[ "r1" := repo_r1; "r2" := repo_r2 ]} |}.

Definition no_repository : RepositoryLocation :=
  {| location_name := "loc1"; get_repositories := ∅ |}.

Definition empty_workspace : WorkspaceRequestContext :=
  {| workspace_snapshot := ∅ |}.

Definition sole_workspace : WorkspaceRequestContext :=
  {| workspace_snapshot := {[ "loc1" := LocationLoaded two_repositories ]} |}.

Definition failed_workspace : WorkspaceRequestContext :=
  {| workspace_snapshot := {[ "loc1" := LocationFailed "connection refused" ]} |}.

Definition three_locations : WorkspaceRequestContext :=
  {| workspace_snapshot :=
       {[ "c" := LocationLoaded no_repository;
          "a" := LocationLoaded two_repositories;
          "b" := LocationFailed "connection refused" ]} |}.

Definition open_failed_workspace (target : WorkspaceLoadTarget)
  : exn + WorkspaceRequestContext :=
  ret failed_workspace.

(** A loader that finds the repositories [r1] and [r2]. *)
Definition two_repo_loader (python_file module_name package_name working_directory
                            attribute_ : pyval) : exn + list (LoadableTarget string) :=
  ret [ {| attribute := "first"; target_definition := "r1" |};
        {| attribute := "second"; target_definition := "r2" |} ].

(** The dictionaries that the two loaders above give for the python file
    [repo.py] and for the module [pkg.defs]. *)
Definition main_repo_pointers : gmap string CodePointer :=
  {[ "main_repo" := FileCodePointer (VStr "repo.py") (VStr "second_repo") (VStr cwd) ]}.

Definition module_pointers : gmap string CodePointer :=
  {[ "r1" := ModuleCodePointer (VStr "pkg.defs") (VStr "first");
     "r2" := ModuleCodePointer (VStr "pkg.defs") (VStr "second") ]}.

Definition two_pipelines (origin : RepositoryPythonOrigin) : exn + RepositoryDefinition :=
  ret {| definition_name := "main_repo";
         definition_pipeline_names := ["train"; "ingest"] |}.

Definition no_pipelines (origin : RepositoryPythonOrigin) : exn + RepositoryDefinition :=
  ret {| definition_name := "main_repo"; definition_pipeline_names := [] |}.

(** A repository with two pipelines of the name [train]. *)
Definition repo_twice_train : ExternalRepository :=
  {| repository_name := "r3";
     get_all_external_pipelines :=
       [ {| pipeline_name := "train"; pipeline_handle := "r3.train#1" |};
         {| pipeline_name := "train"; pipeline_handle := "r3.train#2" |} ] |}.

End Sample.

(** ** Proofs: guards *)

Local Arguments kwargs_get : simpl never.

Lemma cli_load_invariant_false msg :
  exists text, _cli_load_invariant false msg = inl (UsageError text).
Proof. unfold _cli_load_invariant. cbn. eauto. Qed.

Lemma check_cli_arguments_none_ok kwargs keys :
  (forall key, key ∈ keys -> truthy (kwargs_get kwargs key) = false) ->
  _check_cli_arguments_none kwargs keys = inr tt.
Proof.
  induction keys as [|key keys IH]; intros Hall; [reflexivity|].
  cbn. rewrite (Hall key) by left. cbn.
  apply IH. intros k Hk. apply Hall. by right.
Qed.

Lemma check_cli_arguments_none_fails kwargs keys key :
  key ∈ keys -> truthy (kwargs_get kwargs key) = true ->
  _check_cli_arguments_none kwargs keys = inl (UsageError INVALID_CLI_ARGUMENTS).
Proof.
  induction keys as [|k keys IH]; intros Hin Hset.
  - by apply elem_of_nil in Hin.
  - cbn. destruct (truthy (kwargs_get kwargs k)) eqn:Hk; cbn; [reflexivity|].
    apply elem_of_cons in Hin as [->|Hin]; [congruence|]. by apply IH.
Qed.

Lemma check_cli_arguments_none_cases kwargs keys :
  _check_cli_arguments_none kwargs keys = inr tt
  \/ _check_cli_arguments_none kwargs keys = inl (UsageError INVALID_CLI_ARGUMENTS).
Proof.
  induction keys as [|k keys IH]; [by left|].
  cbn. destruct (truthy (kwargs_get kwargs k)); cbn; [by right|exact IH].
Qed.

Lemma are_all_keys_empty_true kwargs keys :
  are_all_keys_empty kwargs keys = true <->
  forall key, key ∈ keys -> truthy (kwargs_get kwargs key) = false.
Proof.
  induction keys as [|k keys IH]; cbn.
  - split; [|done]. intros _ key Hin. by apply elem_of_nil in Hin.
  - destruct (truthy (kwargs_get kwargs k)) eqn:Hk.
    + split; [done|]. intros Hall. rewrite (Hall k) in Hk by left. done.
    + rewrite IH. split.
      * intros Hall key Hin. apply elem_of_cons in Hin as [->|Hin]; auto.
      * intros Hall key Hin. apply Hall. by right.
Qed.

Lemma are_all_keys_empty_false kwargs keys key :
  key ∈ keys -> truthy (kwargs_get kwargs key) = true ->
  are_all_keys_empty kwargs keys = false.
Proof.
  intros Hin Hset. destruct (are_all_keys_empty kwargs keys) eqn:Hall; [|done].
  rewrite are_all_keys_empty_true in Hall. rewrite (Hall key Hin) in Hset. done.
Qed.

(** Case analysis on the options a branch reads: facts already known are
    rewritten, the others are split. *)
Ltac split_options :=
  repeat (cbn [bind raise ret _cli_load_invariant negb are_all_keys_empty
               _check_cli_arguments_none];
          match goal with
          | H : truthy (kwargs_get ?kw ?k) = _ |- context [truthy (kwargs_get ?kw ?k)] =>
              rewrite H
          | |- context [truthy (kwargs_get ?kw ?k)] =>
              destruct (truthy (kwargs_get kw k)) eqn:?
          end);
  cbn [bind raise ret _cli_load_invariant negb]; try reflexivity; try congruence.

(** Membership of a literal key in a literal list of keys, and its absence. *)
Ltac listed :=
  unfold WORKSPACE_CLI_ARGS;
  repeat first [ apply list_elem_of_here | apply list_elem_of_further ].

Ltac not_listed :=
  repeat (apply not_elem_of_cons; split; [discriminate|]); apply not_elem_of_nil.

(** ** Proofs: the load-target resolver *)

Section Resolver.

Variable cwd : string.
Variable path_exists : string -> bool.

(** C1.  Conflicting targets are rejected.  Let [governing] be the governing
    option of the option map (the first given among workspace, python file,
    module name, package name, grpc port, grpc socket) and let [key] be given
    too, [key] being either an option that the resolution order excludes next
    to [governing] or another governing option.  Then
    [created_workspace_load_target] returns no load target: it raises the
    usage error of [_check_cli_arguments_none] (ConflictingTargets). *)
Theorem conflicting_targets_rejected kwargs governing key :
  governing_option kwargs = Some governing ->
  key ∈ spec_exclusions governing
    \/ (key ∈ governing_options /\ key <> governing) ->
  is_set kwargs key ->
  created_workspace_load_target cwd path_exists kwargs
  = inl (UsageError INVALID_CLI_ARGUMENTS).
Proof.
  unfold governing_option, governing_options, is_set.
  intros Hgov Hkey Hset. cbn [List.find] in Hgov.
  repeat match type of Hgov with
         | context [truthy (kwargs_get ?kw ?k)] =>
             destruct (truthy (kwargs_get kw k)) eqn:?
         end;
    inversion Hgov; subst governing; clear Hgov;
    (destruct Hkey as [Hkey|[Hkey Hne]];
     [ cbn in Hkey | ];
     repeat (apply elem_of_cons in Hkey as [->|Hkey]);
     try (by apply elem_of_nil in Hkey); try congruence;
     unfold created_workspace_load_target, WORKSPACE_CLI_ARGS; split_options).
Qed.

(** C5.  No target option given.  When none of the recognised target options
    ([WORKSPACE_CLI_ARGS]) is given: with the empty-workspace flag the resolver
    returns the empty target; without it, it returns the workspace file
    [workspace.yaml] when that file exists in the current directory, and
    otherwise raises the usage error "No arguments given and workspace.yaml
    not found." (NoTargetSpecified). *)
Theorem no_target_option_given kwargs :
  (forall key, key ∈ WORKSPACE_CLI_ARGS -> ~ is_set kwargs key) ->
  (is_set kwargs "empty_workspace" ->
   created_workspace_load_target cwd path_exists kwargs = inr EmptyWorkspaceTarget)
  /\ (~ is_set kwargs "empty_workspace" -> path_exists "workspace.yaml" = true ->
      created_workspace_load_target cwd path_exists kwargs
      = inr (WorkspaceFileTarget ["workspace.yaml"]))
  /\ (~ is_set kwargs "empty_workspace" -> path_exists "workspace.yaml" = false ->
      created_workspace_load_target cwd path_exists kwargs
      = inl (UsageError "No arguments given and workspace.yaml not found.")).
Proof.
  unfold is_set. intros Hnone.
  assert (are_all_keys_empty kwargs WORKSPACE_CLI_ARGS = true) as Hall.
  { apply are_all_keys_empty_true. intros key Hin.
    specialize (Hnone key Hin). by destruct (truthy (kwargs_get kwargs key)). }
  unfold created_workspace_load_target. rewrite Hall.
  destruct (truthy (kwargs_get kwargs "empty_workspace")); repeat split;
    intros; try done; by match goal with H : path_exists _ = _ |- _ => rewrite H end.
Qed.

Lemma kwargs_get_insert_ne kwargs key key' value :
  key <> key' -> kwargs_get (<[key:=value]> kwargs) key' = kwargs_get kwargs key'.
Proof. intros Hne. unfold kwargs_get. by rewrite lookup_insert_ne. Qed.

Lemma are_all_keys_empty_insert_ne kwargs key value keys :
  key ∉ keys ->
  are_all_keys_empty (<[key:=value]> kwargs) keys = are_all_keys_empty kwargs keys.
Proof.
  induction keys as [|k keys IH]; intros Hnotin; [reflexivity|].
  apply not_elem_of_cons in Hnotin as [Hne Hnotin].
  cbn. rewrite kwargs_get_insert_ne by done. by rewrite IH.
Qed.

Lemma check_cli_arguments_none_insert_ne kwargs key value keys :
  key ∉ keys ->
  _check_cli_arguments_none (<[key:=value]> kwargs) keys
  = _check_cli_arguments_none kwargs keys.
Proof.
  induction keys as [|k keys IH]; intros Hnotin; [reflexivity|].
  apply not_elem_of_cons in Hnotin as [Hne Hnotin].
  cbn. rewrite kwargs_get_insert_ne by done. by rewrite IH.
Qed.

(** As soon as one recognised target option is given, the value of the
    empty-workspace flag has no effect on the result of
    [created_workspace_load_target]. *)
Lemma empty_workspace_flag_no_effect kwargs key flag :
  key ∈ WORKSPACE_CLI_ARGS -> is_set kwargs key ->
  created_workspace_load_target cwd path_exists (<["empty_workspace":=flag]> kwargs)
  = created_workspace_load_target cwd path_exists kwargs.
Proof.
  unfold is_set. intros Hin Hset.
  pose proof (are_all_keys_empty_false kwargs _ key Hin Hset) as Hall.
  unfold created_workspace_load_target, get_working_directory_from_kwargs, kwargs_item.
  rewrite are_all_keys_empty_insert_ne by (unfold WORKSPACE_CLI_ARGS; not_listed).
  rewrite Hall.
  rewrite !check_cli_arguments_none_insert_ne by not_listed.
  rewrite !kwargs_get_insert_ne by discriminate.
  rewrite lookup_insert_ne by discriminate.
  reflexivity.
Qed.

(** C10.  The gRPC host on its own.  When the gRPC host is the only
    recognised target option given, [created_workspace_load_target] returns
    neither a gRPC server target nor the empty or default workspace: it
    raises the generic usage error of the final [_cli_load_invariant(False)],
    whatever the empty-workspace flag and the file system say. *)
Theorem grpc_host_alone_invalid kwargs :
  is_set kwargs "grpc_host" ->
  (forall key, key ∈ WORKSPACE_CLI_ARGS -> key <> "grpc_host" -> ~ is_set kwargs key) ->
  created_workspace_load_target cwd path_exists kwargs
  = inl (UsageError INVALID_CLI_ARGUMENTS).
Proof.
  unfold is_set. intros Hhost Hothers.
  assert (forall key, key ∈ WORKSPACE_CLI_ARGS -> key <> "grpc_host" ->
                      truthy (kwargs_get kwargs key) = false) as Hoff.
  { intros key Hin Hne. specialize (Hothers key Hin Hne).
    by destruct (truthy (kwargs_get kwargs key)). }
  assert (are_all_keys_empty kwargs WORKSPACE_CLI_ARGS = false) as Hall.
  { apply (are_all_keys_empty_false _ _ "grpc_host"); [listed|done]. }
  pose proof (Hoff "workspace" ltac:(listed) ltac:(discriminate)).
  pose proof (Hoff "python_file" ltac:(listed) ltac:(discriminate)).
  pose proof (Hoff "module_name" ltac:(listed) ltac:(discriminate)).
  pose proof (Hoff "package_name" ltac:(listed) ltac:(discriminate)).
  pose proof (Hoff "grpc_port" ltac:(listed) ltac:(discriminate)).
  pose proof (Hoff "grpc_socket" ltac:(listed) ltac:(discriminate)).
  unfold created_workspace_load_target. rewrite Hall.
  split_options.
Qed.

(** C8.  Working directory of a python-file target.
    [get_working_directory_from_kwargs] is [None] when the
    empty-working-directory flag is given, whatever directory is given with
    it; otherwise it is the given working directory; otherwise the current
    directory of the process.  Every python-file target that
    [created_workspace_load_target] returns carries that value. *)
Theorem working_directory_resolution kwargs :
  (is_set kwargs "empty_working_directory" ->
   get_working_directory_from_kwargs cwd kwargs = VNone)
  /\ (~ is_set kwargs "empty_working_directory" -> is_set kwargs "working_directory" ->
      get_working_directory_from_kwargs cwd kwargs = kwargs_get kwargs "working_directory")
  /\ (~ is_set kwargs "empty_working_directory" -> ~ is_set kwargs "working_directory" ->
      get_working_directory_from_kwargs cwd kwargs = VStr cwd)
  /\ (forall python_file attribute working_directory location_name,
        created_workspace_load_target cwd path_exists kwargs
        = inr (PythonFileTarget python_file attribute working_directory location_name) ->
        working_directory = get_working_directory_from_kwargs cwd kwargs).
Proof.
  unfold is_set. repeat split.
  - intros Hflag. unfold get_working_directory_from_kwargs. by rewrite Hflag.
  - intros Hflag Hdir. unfold get_working_directory_from_kwargs.
    rewrite Hdir. by destruct (truthy (kwargs_get kwargs "empty_working_directory")).
  - intros Hflag Hdir. unfold get_working_directory_from_kwargs.
    destruct (truthy (kwargs_get kwargs "empty_working_directory")); [done|].
    by destruct (truthy (kwargs_get kwargs "working_directory")).
  - intros python_file attribute working_directory location_name.
    unfold created_workspace_load_target, WORKSPACE_CLI_ARGS.
    generalize (get_working_directory_from_kwargs cwd kwargs) as resolved.
    intros resolved.
    destruct (kwargs_item kwargs "workspace") as [e|item]; cbn [bind];
      [|destruct (py_list item) as [e|paths]; cbn [bind]];
      destruct (path_exists "workspace.yaml");
      split_options; intros Heq; by inversion Heq.
Qed.

End Resolver.

(** ** Proofs: rendering of candidate names *)

Lemma sorted_Sorted names : Sorted String.le (sorted names).
Proof. apply (Sorted_merge_sort String.le). Qed.

Lemma sorted_Permutation names : sorted names ≡ₚ names.
Proof. apply (merge_sort_Permutation String.le). Qed.

Lemma string_app_assoc (a b c : string) : (a +:+ b) +:+ c = a +:+ (b +:+ c).
Proof.
  induction a as [|ch a IH]; [reflexivity|].
  change (String ch ((a +:+ b) +:+ c) = String ch (a +:+ (b +:+ c))). by f_equal.
Qed.

Lemma concat_quoted_render names :
  String.concat ", " ((fun s => "'" +:+ s +:+ "'") <$> names) = spec_render_items names.
Proof.
  induction names as [|name rest IH]; [reflexivity|].
  destruct rest as [|name' rest]; [reflexivity|].
  change (String.concat ", " ((fun s => "'" +:+ s +:+ "'") <$> name :: name' :: rest))
    with (("'" +:+ name +:+ "'") +:+ ", "
          +:+ String.concat ", " ((fun s => "'" +:+ s +:+ "'") <$> name' :: rest)).
  rewrite IH. cbn [spec_render_items].
  generalize (spec_render_items (name' :: rest)) as tail. intros tail.
  rewrite !string_app_assoc. reflexivity.
Qed.

Lemma sorted_quoted_render names : _sorted_quoted names = spec_render (sorted names).
Proof. unfold _sorted_quoted, spec_render. by rewrite concat_quoted_render. Qed.

Lemma elem_of_dict_keys {V} (d : gmap string V) name :
  name ∈ dict_keys d <-> is_Some (d !! name).
Proof.
  unfold dict_keys. rewrite list_elem_of_fmap. split.
  - intros [[k v] [-> Hin]]. apply elem_of_map_to_list in Hin. by exists v.
  - intros [v Hv]. exists (name, v). split; [done|]. by apply elem_of_map_to_list.
Qed.

Lemma length_dict_keys {V} (d : gmap string V) : length (dict_keys d) = size d.
Proof. unfold dict_keys. by rewrite length_fmap, length_map_to_list. Qed.

Lemma sorted_lists_candidates {V} (d : gmap string V) :
  lists_candidates (sorted (dict_keys d)) d.
Proof.
  repeat split.
  - rewrite sorted_Permutation. apply elem_of_dict_keys.
  - rewrite sorted_Permutation. apply elem_of_dict_keys.
  - rewrite sorted_Permutation. apply NoDup_fst_map_to_list.
  - apply sorted_Sorted.
Qed.

Lemma dict_first_value_singleton {V} name (v : V) :
  dict_first_value ({[name := v]} : gmap string V) = inr v.
Proof. unfold dict_first_value. by rewrite map_to_list_singleton. Qed.

Lemma dict_size_1 {V} (d : gmap string V) :
  size d = 1 -> exists name v, d = {[name := v]}.
Proof.
  intros Hsize.
  destruct (map_to_list d) as [|[name v] rest] eqn:Hlist.
  - apply map_to_list_empty_iff in Hlist. subst d. by rewrite map_size_empty in Hsize.
  - destruct rest as [|kv rest].
    + exists name, v. apply map_to_list_inj. rewrite Hlist, map_to_list_singleton. done.
    + rewrite <- length_map_to_list, Hlist in Hsize. cbn in Hsize. lia.
Qed.

Lemma foldl_insert_lookup_other {X V} (key : X -> string) (value : X -> V)
  (xs : list X) (d : gmap string V) name :
  (forall y, y ∈ xs -> key y <> name) ->
  foldl (fun d x => <[key x := value x]> d) d xs !! name = d !! name.
Proof.
  revert d. induction xs as [|x xs IH]; intros d Hother; [reflexivity|].
  cbn. rewrite IH by (intros y Hy; apply Hother; by right).
  apply lookup_insert_ne. apply Hother. by left.
Qed.

Lemma dict_comprehension_last {X V} (key : X -> string) (value : X -> V)
  (before : list X) x (after : list X) :
  (forall y, y ∈ after -> key y <> key x) ->
  dict_comprehension key value (before ++ x :: after) !! key x = Some (value x).
Proof.
  intros Hafter. unfold dict_comprehension. rewrite foldl_app. cbn.
  rewrite foldl_insert_lookup_other by done. apply lookup_insert_eq.
Qed.

Lemma dict_comprehension_nil {X V} (key : X -> string) (value : X -> V) :
  dict_comprehension key value [] = ∅.
Proof. reflexivity. Qed.

Lemma dict_comprehension_non_empty {X V} (key : X -> string) (value : X -> V) xs :
  xs <> [] -> dict_comprehension key value xs <> ∅.
Proof.
  intros Hxs Hempty.
  destruct (exists_last Hxs) as (before & x & ->).
  pose proof (dict_comprehension_last key value before x []) as Hlast.
  rewrite Hempty, lookup_empty in Hlast. discriminate Hlast.
  intros y Hy. by apply elem_of_nil in Hy.
Qed.

Lemma dict_len_non_empty {V} (d : gmap string V) :
  d <> ∅ -> Nat.eqb (dict_len d) 0 = false.
Proof.
  intros Hne. apply Nat.eqb_neq. unfold dict_len. by apply map_size_non_empty_iff.
Qed.

(** ** Proofs: navigation of a workspace *)

Section Navigation.

Variable py_str : pyval -> string.

Lemma select_by_name {V} (d : gmap string V) name v :
  d !! name = Some v ->
  py_in_dict (VStr name) d = true /\ py_dict_item py_str d (VStr name) = inr v.
Proof.
  intros Hv. unfold py_in_dict, py_dict_item, dict_item. rewrite Hv.
  split; [|reflexivity]. apply bool_decide_eq_true_2. by exists v.
Qed.

Lemma select_by_name_missing {V} (d : gmap string V) name :
  d !! name = None -> py_in_dict (VStr name) d = false.
Proof.
  intros Hv. unfold py_in_dict. rewrite Hv.
  apply bool_decide_eq_false_2. by intros [v Hv'].
Qed.

(** C2.  Location selection without a name.  With no location name given,
    [get_repository_location_from_workspace] fails with "No locations found
    in workspace" when the workspace has no location, returns the sole
    location when the workspace has exactly one, and, when it has more than
    one, fails with the ambiguity message, whose list of options is exactly
    the location names, sorted lexicographically and rendered as
    ['a', 'b', 'c']. *)
Theorem location_selection_without_name workspace :
  (workspace_snapshot workspace = ∅ ->
   get_repository_location_from_workspace py_str workspace VNone
   = inl (UsageError "No locations found in workspace"))
  /\ (forall name location,
        workspace_snapshot workspace = {[name := LocationLoaded location]} ->
        get_repository_location_from_workspace py_str workspace VNone = inr location)
  /\ (1 < size (workspace_snapshot workspace) ->
      exists listed,
        lists_candidates listed (workspace_snapshot workspace)
        /\ get_repository_location_from_workspace py_str workspace VNone
           = inl (UsageError
                    ("Must provide --location as there are multiple locations "
                     +:+ "available. Options are: " +:+ spec_render listed))).
Proof.
  unfold get_repository_location_from_workspace, repository_location_names.
  repeat split.
  - intros ->. by rewrite map_to_list_empty.
  - intros name location Hsnap.
    unfold has_repository_location_error, get_repository_location_error,
      get_repository_location.
    rewrite Hsnap, map_to_list_singleton.
    cbn [fmap list_fmap fst length Nat.eqb is_none bind ret py_in_list].
    rewrite bool_decide_eq_true_2 by left.
    cbn [negb bind ret]. rewrite !lookup_singleton_eq. reflexivity.
  - intros Hsize.
    pose proof (length_dict_keys (workspace_snapshot workspace)) as Hlen.
    unfold dict_keys in Hlen.
    exists (sorted (dict_keys (workspace_snapshot workspace))).
    split; [apply sorted_lists_candidates|].
    destruct (Nat.eqb_spec (length (map_to_list (workspace_snapshot workspace)).*1) 1);
      [lia|].
    destruct (Nat.eqb_spec (length (map_to_list (workspace_snapshot workspace)).*1) 0);
      [lia|].
    cbn. by rewrite sorted_quoted_render.
Qed.

(** C3, as the code has it.  Selection of a repository in a location, and of
    a pipeline in a repository, with a name supplied.  When there is at least
    one candidate, the candidate of that name is returned if there is one,
    and otherwise the not-found usage error is raised, whose list is exactly
    the candidate names, sorted and quoted.  When there is no candidate at
    all, the invariant check at the head of the function fails before the
    name is looked at. *)
Theorem selection_by_name repo_location external_repo name :
  let repo_dict := get_repositories repo_location in
  let external_pipelines :=
    dict_comprehension pipeline_name (fun ep => ep)
                       (get_all_external_pipelines external_repo) in
  (repo_dict <> ∅ ->
   (forall repo, repo_dict !! name = Some repo ->
      get_external_repository_from_repo_location py_str repo_location (VStr name)
      = inr repo)
   /\ (repo_dict !! name = None ->
       exists listed,
         lists_candidates listed repo_dict
         /\ get_external_repository_from_repo_location py_str repo_location (VStr name)
            = inl (UsageError
                     ("Repository " +:+ dq +:+ name +:+ dq +:+ " not found in location "
                      +:+ dq +:+ location_name repo_location +:+ dq +:+ ". Found "
                      +:+ spec_render listed +:+ " instead."))))
  /\ (repo_dict = ∅ ->
      get_external_repository_from_repo_location py_str repo_location (VStr name)
      = inl (CheckError (Some "There should be at least one repo.")))
  /\ (get_all_external_pipelines external_repo <> [] ->
      (forall pipeline, external_pipelines !! name = Some pipeline ->
         get_external_pipeline_from_external_repo py_str external_repo (VStr name)
         = inr pipeline)
      /\ (external_pipelines !! name = None ->
          exists listed,
            lists_candidates listed external_pipelines
            /\ get_external_pipeline_from_external_repo py_str external_repo (VStr name)
               = inl (UsageError
                        ("Pipeline " +:+ dq +:+ name +:+ dq +:+ " not found in repository "
                         +:+ dq +:+ repository_name external_repo +:+ dq +:+ ". Found "
                         +:+ spec_render listed +:+ " instead."))))
  /\ (get_all_external_pipelines external_repo = [] ->
      get_external_pipeline_from_external_repo py_str external_repo (VStr name)
      = inl (CheckError None)).
Proof.
  intros repo_dict external_pipelines.
  unfold get_external_repository_from_repo_location,
    get_external_pipeline_from_external_repo, has_repository, get_repository.
  fold repo_dict. fold external_pipelines.
  split; [|split; [|split]].
  - intros Hne. cbn [check_opt_str_param bind ret].
    rewrite (dict_len_non_empty _ Hne). cbn [negb check_invariant bind ret is_none andb].
    split.
    + intros repo Hrepo. destruct (select_by_name _ _ _ Hrepo) as [-> ->]. reflexivity.
    + intros Hmissing. rewrite (select_by_name_missing _ _ Hmissing).
      exists (sorted (dict_keys repo_dict)). split; [apply sorted_lists_candidates|].
      cbn [negb raise]. by rewrite sorted_quoted_render.
  - intros ->. reflexivity.
  - intros Hne. cbn [check_opt_str_param bind ret].
    rewrite (dict_len_non_empty external_pipelines)
      by by apply dict_comprehension_non_empty.
    cbn [negb check_invariant bind ret is_none andb].
    split.
    + intros pipeline Hp. destruct (select_by_name _ _ _ Hp) as [-> ->]. reflexivity.
    + intros Hmissing. rewrite (select_by_name_missing _ _ Hmissing).
      exists (sorted (dict_keys external_pipelines)).
      split; [apply sorted_lists_candidates|].
      cbn [negb raise]. by rewrite sorted_quoted_render.
  - intros Hnil. subst external_pipelines. rewrite Hnil. reflexivity.
Qed.

End Navigation.

Section FailedLocation.

Variable cwd : string.
Variable path_exists : string -> bool.
Variable py_str : pyval -> string.
Variable create_request_context : WorkspaceLoadTarget -> exn + WorkspaceRequestContext.

Lemma failed_location_selected workspace name error :
  workspace_snapshot workspace !! name = Some (LocationFailed error) ->
  get_repository_location_from_workspace py_str workspace (VStr name)
  = inl (UsageError ("Error loading location " +:+ dq +:+ name +:+ dq +:+ ": " +:+ error)).
Proof.
  intros Hfailed.
  unfold get_repository_location_from_workspace, repository_location_names.
  cbn [is_none bind ret py_in_list].
  rewrite bool_decide_eq_true_2
    by (apply (elem_of_dict_keys (workspace_snapshot workspace)); by eexists).
  cbn [negb].
  unfold has_repository_location_error, get_repository_location_error.
  rewrite Hfailed. reflexivity.
Qed.

Lemma sole_location_selected workspace name entry :
  workspace_snapshot workspace = {[name := entry]} ->
  get_repository_location_from_workspace py_str workspace VNone
  = get_repository_location_from_workspace py_str workspace (VStr name).
Proof.
  intros Hsnap.
  unfold get_repository_location_from_workspace, repository_location_names.
  rewrite Hsnap, map_to_list_singleton. reflexivity.
Qed.

(** C6.  A failed location stops the navigation.  Let the selected location,
    named explicitly or selected as the only location of the workspace, be in
    the failed state.  Then [get_repository_location_from_workspace] raises
    the usage error "Error loading location" with the text of the load
    error, and the navigations that go on to select a repository and a
    pipeline raise that same error, whatever the repository and pipeline
    options hold: no selection is made against the failed location. *)
Theorem failed_location_stops_navigation workspace provided name error kwargs :
  workspace_snapshot workspace !! name = Some (LocationFailed error) ->
  provided = VStr name
    \/ (provided = VNone /\ size (workspace_snapshot workspace) = 1) ->
  let raised :=
    UsageError ("Error loading location " +:+ dq +:+ name +:+ dq +:+ ": " +:+ error) in
  get_repository_location_from_workspace py_str workspace provided = inl raised
  /\ (get_workspace_from_kwargs cwd path_exists create_request_context kwargs
      = inr workspace ->
      kwargs_get kwargs "location" = provided ->
      get_repository_location_from_kwargs
        cwd path_exists py_str create_request_context kwargs = inl raised
      /\ get_external_repository_from_kwargs
           cwd path_exists py_str create_request_context kwargs = inl raised
      /\ get_external_pipeline_from_kwargs
           cwd path_exists py_str create_request_context kwargs = inl raised).
Proof.
  intros Hfailed Hselected raised.
  assert (get_repository_location_from_workspace py_str workspace provided = inl raised)
    as Hloc.
  { destruct Hselected as [->|[-> Hsize]].
    - by apply failed_location_selected.
    - destruct (dict_size_1 _ Hsize) as (sole & entry & Hsnap).
      rewrite (sole_location_selected _ _ _ Hsnap).
      rewrite Hsnap in Hfailed. apply lookup_singleton_Some in Hfailed as [-> ->].
      apply failed_location_selected. rewrite Hsnap. apply lookup_singleton_eq. }
  split; [exact Hloc|].
  intros Hopen Hprovided.
  unfold get_external_pipeline_from_kwargs, get_external_repository_from_kwargs,
    get_repository_location_from_kwargs.
  rewrite Hopen, Hprovided. cbn [bind]. rewrite Hloc. by cbn [bind].
Qed.

End FailedLocation.

(** ** Proofs: code pointers and origins *)

Section Origins.

Variable cwd : string.
Variable sys_executable : string.
Variable py_str : pyval -> string.
Variable TargetDefinition : Type.
Variable repository_def_from_target_def_name : TargetDefinition -> string.
Variable get_loadable_targets :
  pyval -> pyval -> pyval -> pyval -> pyval -> exn + list (LoadableTarget TargetDefinition).

Let repo_name (loadable_target : LoadableTarget TargetDefinition) : string :=
  repository_def_from_target_def_name (target_definition loadable_target).

Lemma not_set_false kwargs key :
  ~ is_set kwargs key -> truthy (kwargs_get kwargs key) = false.
Proof. unfold is_set. by destruct (truthy (kwargs_get kwargs key)). Qed.

(** C4, as the code has it.  The short-circuit of the origin builder.  With
    an attribute given and no repository name,
    [get_repository_python_origin_from_kwargs] builds the origin from one
    code pointer, whatever [get_loadable_targets] would do (the result does
    not depend on it, so it is produced for a repository that cannot load):
    file, attribute and resolved working directory when the python file is
    the one given of file, module and package; module and attribute, or
    package and attribute, when the module or the package is the one given
    and no working directory is given. *)
Theorem origin_short_circuit kwargs :
  is_set kwargs "attribute" -> ~ is_set kwargs "repository" ->
  (is_set kwargs "python_file" -> ~ is_set kwargs "module_name" ->
   ~ is_set kwargs "package_name" ->
   get_repository_python_origin_from_kwargs
     cwd sys_executable py_str TargetDefinition repository_def_from_target_def_name
     get_loadable_targets kwargs
   = inr {| executable_path := sys_executable;
            code_pointer :=
              FileCodePointer (kwargs_get kwargs "python_file")
                              (kwargs_get kwargs "attribute")
                              (get_working_directory_from_kwargs cwd kwargs) |})
  /\ (~ is_set kwargs "python_file" -> is_set kwargs "module_name" ->
      ~ is_set kwargs "package_name" -> ~ is_set kwargs "working_directory" ->
      get_repository_python_origin_from_kwargs
        cwd sys_executable py_str TargetDefinition repository_def_from_target_def_name
        get_loadable_targets kwargs
      = inr {| executable_path := sys_executable;
               code_pointer :=
                 ModuleCodePointer (kwargs_get kwargs "module_name")
                                   (kwargs_get kwargs "attribute") |})
  /\ (~ is_set kwargs "python_file" -> ~ is_set kwargs "module_name" ->
      is_set kwargs "package_name" -> ~ is_set kwargs "working_directory" ->
      get_repository_python_origin_from_kwargs
        cwd sys_executable py_str TargetDefinition repository_def_from_target_def_name
        get_loadable_targets kwargs
      = inr {| executable_path := sys_executable;
               code_pointer :=
                 PackageCodePointer (kwargs_get kwargs "package_name")
                                    (kwargs_get kwargs "attribute") |}).
Proof.
  intros Hattr Hrepo%not_set_false. unfold is_set in Hattr.
  repeat split; intros;
    repeat match goal with
           | H : ~ is_set _ _ |- _ => apply not_set_false in H
           | H : is_set _ _ |- _ => unfold is_set in H
           end;
    unfold get_repository_python_origin_from_kwargs;
    generalize (get_working_directory_from_kwargs cwd kwargs); intros resolved;
    split_options.
Qed.

(** C7.  Last write wins in the code-pointer dictionary.  Let
    [get_loadable_targets] return [before ++ target :: after] where no target
    of [after] yields the repository name of [target] (so [target] is the last
    one that yields it).  Then the dictionary that
    [_get_code_pointer_dict_from_kwargs] returns holds, under that name, the
    pointer built from [target], whatever [before] contains: an earlier
    target of the same name has been overwritten. *)
Theorem code_pointer_dict_last_write_wins kwargs before target after :
  get_loadable_targets (kwargs_get kwargs "python_file") (kwargs_get kwargs "module_name")
                       (kwargs_get kwargs "package_name")
                       (get_working_directory_from_kwargs cwd kwargs)
                       (kwargs_get kwargs "attribute")
  = inr (before ++ target :: after)%list ->
  (forall later, later ∈ after -> repo_name later <> repo_name target) ->
  let result :=
    _get_code_pointer_dict_from_kwargs
      cwd TargetDefinition repository_def_from_target_def_name get_loadable_targets
      kwargs in
  (is_set kwargs "python_file" -> ~ is_set kwargs "module_name" ->
   ~ is_set kwargs "package_name" ->
   exists code_pointer_dict,
     result = inr code_pointer_dict
     /\ code_pointer_dict !! repo_name target
        = Some (FileCodePointer (kwargs_get kwargs "python_file")
                                (VStr (attribute target))
                                (get_working_directory_from_kwargs cwd kwargs)))
  /\ (~ is_set kwargs "python_file" -> is_set kwargs "module_name" ->
      ~ is_set kwargs "package_name" -> ~ is_set kwargs "working_directory" ->
      exists code_pointer_dict,
        result = inr code_pointer_dict
        /\ code_pointer_dict !! repo_name target
           = Some (ModuleCodePointer (kwargs_get kwargs "module_name")
                                     (VStr (attribute target))))
  /\ (~ is_set kwargs "python_file" -> ~ is_set kwargs "module_name" ->
      is_set kwargs "package_name" -> ~ is_set kwargs "working_directory" ->
      exists code_pointer_dict,
        result = inr code_pointer_dict
        /\ code_pointer_dict !! repo_name target
           = Some (PackageCodePointer (kwargs_get kwargs "package_name")
                                      (VStr (attribute target)))).
Proof.
  intros Hload Hlast result. subst result.
  repeat split; intros;
    repeat match goal with
           | H : ~ is_set _ _ |- _ => apply not_set_false in H
           | H : is_set _ _ |- _ => unfold is_set in H
           end;
    unfold _get_code_pointer_dict_from_kwargs; rewrite Hload;
    split_options;
    (eexists; split; [reflexivity|]);
    match goal with
    | |- dict_comprehension ?key ?value _ !! _ = _ =>
        exact (dict_comprehension_last key value before target after Hlast)
    end.
Qed.

End Origins.

(** ** The theorems at sample inputs *)

Ltac unset_everywhere Hin :=
  unfold WORKSPACE_CLI_ARGS in Hin;
  repeat (apply elem_of_cons in Hin as [->|Hin]);
  [ try (vm_compute; discriminate); try congruence .. | by apply elem_of_nil in Hin ].

(** A module name with a stray working directory is rejected. *)
Lemma conflicting_targets_rejected_witness :
  created_workspace_load_target Sample.cwd Sample.no_file
    (kwargs_of [("module_name", VStr "pkg.defs"); ("working_directory", VStr "/tmp")])
  = inl (UsageError INVALID_CLI_ARGUMENTS).
Proof.
  apply (conflicting_targets_rejected _ _ _ "module_name" "working_directory").
  - vm_compute. reflexivity.
  - left. vm_compute. listed.
  - vm_compute. reflexivity.
Defined.

(** An option holding a value that is false in Python's sense (here the
    port 0) is not given: it raises no conflict. *)
Example falsy_option_is_not_given :
  created_workspace_load_target Sample.cwd Sample.no_file
    (kwargs_of [("python_file", VStr "repo.py"); ("grpc_port", VInt 0)])
  = inr (PythonFileTarget (VStr "repo.py") VNone (VStr Sample.cwd) VNone).
Proof. vm_compute. reflexivity. Qed.

(** Two governing options together are rejected as well. *)
Example file_and_port_rejected :
  created_workspace_load_target Sample.cwd Sample.no_file
    (kwargs_of [("python_file", VStr "repo.py"); ("grpc_port", VInt 4000)])
  = inl (UsageError INVALID_CLI_ARGUMENTS).
Proof. vm_compute. reflexivity. Qed.

(** A port on its own resolves to the server on localhost. *)
Example grpc_port_alone :
  created_workspace_load_target Sample.cwd Sample.no_file
    (kwargs_of [("grpc_port", VInt 4000)])
  = inr (GrpcServerTarget (VInt 4000) VNone (VStr "localhost") VNone).
Proof. vm_compute. reflexivity. Qed.

(** With only the empty-workspace flag the empty target is returned. *)
Lemma no_target_option_given_witness :
  created_workspace_load_target Sample.cwd Sample.no_file
    (kwargs_of [("empty_workspace", VBool true); ("location", VStr "loc1")])
  = inr EmptyWorkspaceTarget.
Proof.
  apply (no_target_option_given Sample.cwd Sample.no_file).
  - intros key Hin. unset_everywhere Hin.
  - vm_compute. reflexivity.
Defined.

(** A host on its own is invalid even with the empty-workspace flag. *)
Lemma grpc_host_alone_invalid_witness :
  created_workspace_load_target Sample.cwd Sample.no_file
    (kwargs_of [("grpc_host", VStr "example.org"); ("empty_workspace", VBool true)])
  = inl (UsageError INVALID_CLI_ARGUMENTS).
Proof.
  apply grpc_host_alone_invalid.
  - vm_compute. reflexivity.
  - intros key Hin Hne. unset_everywhere Hin.
Defined.

(** The empty-working-directory flag wins over a given directory. *)
Lemma working_directory_resolution_witness :
  get_working_directory_from_kwargs Sample.cwd
    (kwargs_of [("python_file", VStr "repo.py"); ("working_directory", VStr "/srv");
                ("empty_working_directory", VBool true)])
  = VNone.
Proof.
  apply (working_directory_resolution Sample.cwd Sample.no_file).
  vm_compute. reflexivity.
Defined.

(** The sole loaded location is returned, and an empty workspace is
    reported as such. *)
Lemma location_selection_without_name_witness :
  get_repository_location_from_workspace Sample.py_str Sample.sole_workspace VNone
  = inr Sample.two_repositories
  /\ get_repository_location_from_workspace Sample.py_str Sample.empty_workspace VNone
     = inl (UsageError "No locations found in workspace").
Proof.
  split.
  - apply (proj1 (proj2 (location_selection_without_name
                           Sample.py_str Sample.sole_workspace))
             "loc1" Sample.two_repositories).
    reflexivity.
  - apply (proj1 (location_selection_without_name Sample.py_str Sample.empty_workspace)).
    reflexivity.
Defined.

(** The ambiguity message of three locations entered as c, a, b. *)
Example location_ambiguity_message :
  get_repository_location_from_workspace Sample.py_str Sample.three_locations VNone
  = inl (UsageError
           ("Must provide --location as there are multiple locations "
            +:+ "available. Options are: ['a', 'b', 'c']")).
Proof. vm_compute. reflexivity. Qed.

(** C3 as stated fails: with a name supplied and no repository in the
    location, the function raises the check error of its invariant, and no
    usage error at all. *)
Lemma selection_in_empty_location :
  get_external_repository_from_repo_location Sample.py_str Sample.no_repository (VStr "r1")
  = inl (CheckError (Some "There should be at least one repo."))
  /\ ~ (exists msg,
          get_external_repository_from_repo_location
            Sample.py_str Sample.no_repository (VStr "r1")
          = inl (UsageError msg)).
Proof.
  split; [reflexivity|]. intros [msg Hmsg]. vm_compute in Hmsg. discriminate Hmsg.
Qed.

(** The same for the pipelines of a repository that has none. *)
Example selection_in_empty_repository :
  get_external_pipeline_from_external_repo Sample.py_str Sample.repo_r2 (VStr "train")
  = inl (CheckError None).
Proof. reflexivity. Qed.

(** In a location with two repositories the named one is returned. *)
Lemma selection_by_name_witness :
  get_external_repository_from_repo_location
    Sample.py_str Sample.two_repositories (VStr "r2")
  = inr Sample.repo_r2.
Proof.
  apply (proj1 (selection_by_name Sample.py_str Sample.two_repositories
                                  Sample.repo_r1 "r2")).
  - vm_compute. discriminate.
  - vm_compute. reflexivity.
Defined.

Example repository_not_found_message :
  get_external_repository_from_repo_location
    Sample.py_str Sample.two_repositories (VStr "r3")
  = inl (UsageError
           ("Repository " +:+ dq +:+ "r3" +:+ dq +:+ " not found in location "
            +:+ dq +:+ "loc1" +:+ dq +:+ ". Found ['r1', 'r2'] instead.")).
Proof. vm_compute. reflexivity. Qed.

(** C4 as stated fails: a module name with an attribute, no repository name,
    and a working directory gives no origin but the usage error of
    [_check_cli_arguments_none]. *)
Lemma origin_short_circuit_rejects_working_directory :
  get_repository_python_origin_from_kwargs
    Sample.cwd Sample.executable Sample.py_str string (fun name => name)
    Sample.broken_loader
    (kwargs_of [("module_name", VStr "pkg.defs"); ("attribute", VStr "my_repo");
                ("working_directory", VStr "/srv")])
  = inl (UsageError INVALID_CLI_ARGUMENTS)
  /\ ~ (exists origin,
          get_repository_python_origin_from_kwargs
            Sample.cwd Sample.executable Sample.py_str string (fun name => name)
            Sample.broken_loader
            (kwargs_of [("module_name", VStr "pkg.defs"); ("attribute", VStr "my_repo");
                        ("working_directory", VStr "/srv")])
          = inr origin).
Proof.
  split; [vm_compute; reflexivity|].
  intros [origin Horigin]. vm_compute in Horigin. discriminate Horigin.
Qed.

(** The origin of a module whose code cannot be imported. *)
Lemma origin_short_circuit_witness :
  get_repository_python_origin_from_kwargs
    Sample.cwd Sample.executable Sample.py_str string (fun name => name)
    Sample.broken_loader
    (kwargs_of [("module_name", VStr "pkg.defs"); ("attribute", VStr "my_repo")])
  = inr {| executable_path := Sample.executable;
           code_pointer := ModuleCodePointer (VStr "pkg.defs") (VStr "my_repo") |}.
Proof.
  apply (proj1 (proj2 (origin_short_circuit
                         Sample.cwd Sample.executable Sample.py_str string
                         (fun name => name) Sample.broken_loader
                         (kwargs_of [("module_name", VStr "pkg.defs");
                                     ("attribute", VStr "my_repo")])
                         ltac:(vm_compute; reflexivity)
                         ltac:(vm_compute; discriminate))));
    vm_compute; first [ reflexivity | discriminate ].
Defined.

(** Without the short-circuit the same options reach the loader and fail. *)
Example origin_needs_loader_with_repository_name :
  get_repository_python_origin_from_kwargs
    Sample.cwd Sample.executable Sample.py_str string (fun name => name)
    Sample.broken_loader
    (kwargs_of [("module_name", VStr "pkg.defs"); ("attribute", VStr "my_repo");
                ("repository", VStr "my_repo")])
  = inl (UsageError "No module named 'pkg'").
Proof. vm_compute. reflexivity. Qed.

(** A single failed location, no location option: the load error is raised
    by every navigation, here with a repository option that would not even
    pass the parameter check of the repository selection. *)
Lemma failed_location_stops_navigation_witness :
  get_repository_location_from_workspace Sample.py_str Sample.failed_workspace VNone
  = inl (UsageError ("Error loading location " +:+ dq +:+ "loc1" +:+ dq
                     +:+ ": connection refused"))
  /\ get_external_pipeline_from_kwargs
       Sample.cwd Sample.no_file Sample.py_str Sample.open_failed_workspace
       (kwargs_of [("grpc_port", VInt 4000); ("repository", VInt 7)])
     = inl (UsageError ("Error loading location " +:+ dq +:+ "loc1" +:+ dq
                        +:+ ": connection refused")).
Proof.
  pose proof (failed_location_stops_navigation
                Sample.cwd Sample.no_file Sample.py_str Sample.open_failed_workspace
                Sample.failed_workspace VNone "loc1" "connection refused"
                (kwargs_of [("grpc_port", VInt 4000); ("repository", VInt 7)])
                ltac:(vm_compute; reflexivity)
                ltac:(right; split; vm_compute; reflexivity)) as [Hloc Hnav].
  split; [exact Hloc|].
  apply Hnav; vm_compute; reflexivity.
Defined.

(** Two loadable targets of one file yield [main_repo]: the dictionary holds
    the pointer of the second. *)
Lemma code_pointer_dict_last_write_wins_witness :
  exists code_pointer_dict,
    _get_code_pointer_dict_from_kwargs
      Sample.cwd string (fun name => name) Sample.duplicate_loader
      (kwargs_of [("python_file", VStr "repo.py")])
    = inr code_pointer_dict
    /\ code_pointer_dict !! "main_repo"
       = Some (FileCodePointer (VStr "repo.py") (VStr "second_repo") (VStr Sample.cwd)).
Proof.
  apply (proj1 (code_pointer_dict_last_write_wins
                  Sample.cwd string (fun name => name) Sample.duplicate_loader
                  (kwargs_of [("python_file", VStr "repo.py")])
                  [ {| attribute := "first_repo"; target_definition := "main_repo" |} ]
                  {| attribute := "second_repo"; target_definition := "main_repo" |}
                  []
                  ltac:(vm_compute; reflexivity)
                  ltac:(intros later Hin; by apply elem_of_nil in Hin)));
    vm_compute; first [ reflexivity | discriminate ].
Defined.

(** ** Further properties: the load-target resolver *)

Lemma check_cli_arguments_none_ok_iff kwargs keys :
  _check_cli_arguments_none kwargs keys = inr tt
  <-> forall key, key ∈ keys -> ~ is_set kwargs key.
Proof.
  unfold is_set. split.
  - intros Hok key Hin Hset.
    rewrite (check_cli_arguments_none_fails kwargs keys key Hin Hset) in Hok.
    discriminate Hok.
  - intros Hnone. apply check_cli_arguments_none_ok. intros key Hin.
    specialize (Hnone key Hin). by destruct (truthy (kwargs_get kwargs key)).
Qed.

Lemma check_cli_arguments_none_fails_iff kwargs keys :
  _check_cli_arguments_none kwargs keys = inl (UsageError INVALID_CLI_ARGUMENTS)
  <-> exists key, key ∈ keys /\ is_set kwargs key.
Proof.
  split.
  - induction keys as [|k keys IH]; cbn; [discriminate|].
    destruct (truthy (kwargs_get kwargs k)) eqn:Hk; cbn.
    + intros _. exists k. split; [by left|exact Hk].
    + intros Hrest. destruct (IH Hrest) as (key & Hin & Hset).
      exists key. split; [by right|exact Hset].
  - intros (key & Hin & Hset). by apply (check_cli_arguments_none_fails _ _ key).
Qed.

(** X7.  The two guards agree: [_check_cli_arguments_none] passes on a list
    of keys exactly when [are_all_keys_empty] is true of it, and when it does
    not pass, the error is the default usage error. *)
Theorem guards_agree kwargs keys :
  (are_all_keys_empty kwargs keys = true
   <-> _check_cli_arguments_none kwargs keys = inr tt)
  /\ (are_all_keys_empty kwargs keys = false
      <-> _check_cli_arguments_none kwargs keys
          = inl (UsageError INVALID_CLI_ARGUMENTS)).
Proof.
  induction keys as [|k keys [IHt IHf]]; cbn.
  - repeat split; intros; done.
  - destruct (truthy (kwargs_get kwargs k)); cbn; [|by split].
    repeat split; intros; done.
Qed.

Section ResolverBranches.

Variable cwd : string.
Variable path_exists : string -> bool.

Lemma governing_option_Some kwargs governing :
  governing_option kwargs = Some governing ->
  governing ∈ governing_options /\ is_set kwargs governing.
Proof.
  unfold governing_option. intros Hfind. apply List.find_some in Hfind as [Hin Hset].
  split; [by apply list_elem_of_In|exact Hset].
Qed.

(** The resolver under a governing option: the check of that option's
    branch, then the target of the branch. *)
Lemma resolver_branch kwargs governing :
  governing_option kwargs = Some governing ->
  created_workspace_load_target cwd path_exists kwargs
  = let* _ := _check_cli_arguments_none kwargs (checked_next_to governing) in
    if String.eqb governing "workspace" then
      let* item := kwargs_item kwargs "workspace" in
      let* paths := py_list item in
      ret (WorkspaceFileTarget paths)
    else ret (target_of_branch cwd kwargs governing []).
Proof.
  intros Hgov. pose proof (governing_option_Some _ _ Hgov) as [Hin Hset].
  assert (are_all_keys_empty kwargs WORKSPACE_CLI_ARGS = false) as Hall.
  { apply (are_all_keys_empty_false _ _ governing); [|exact Hset].
    unfold governing_options in Hin.
    repeat (apply elem_of_cons in Hin as [->|Hin]); [listed ..|].
    by apply elem_of_nil in Hin. }
  unfold governing_option, governing_options in Hgov. cbn [List.find] in Hgov.
  unfold created_workspace_load_target. rewrite Hall.
  repeat match type of Hgov with
         | context [truthy (kwargs_get ?kw ?k)] =>
             destruct (truthy (kwargs_get kw k)) eqn:?
         end;
    inversion Hgov; subst governing; reflexivity.
Qed.

(** X1.  One governing option, nothing that its branch checks: the resolver
    returns the target of that branch.  For a python file this is the file
    with the attribute and the resolved working directory; for a module or a
    package, the name with the attribute; for a gRPC port or socket, the
    server target with the given host, [localhost] when none is given. *)
Theorem resolver_returns_branch_target kwargs governing :
  governing_option kwargs = Some governing ->
  governing <> "workspace" ->
  (forall key, key ∈ checked_next_to governing -> ~ is_set kwargs key) ->
  created_workspace_load_target cwd path_exists kwargs
  = inr (target_of_branch cwd kwargs governing []).
Proof.
  intros Hgov Hne Hnone. rewrite (resolver_branch _ _ Hgov).
  apply check_cli_arguments_none_ok_iff in Hnone. rewrite Hnone. cbn [bind].
  apply String.eqb_neq in Hne. by rewrite Hne.
Qed.

(** X2.  Under a governing option, the resolver raises the default usage
    error exactly when one of the options that the branch of that option
    checks is given.  Next to a python file, a module or a package this
    includes the gRPC host. *)
Theorem resolver_rejects_exactly kwargs governing :
  governing_option kwargs = Some governing ->
  created_workspace_load_target cwd path_exists kwargs
  = inl (UsageError INVALID_CLI_ARGUMENTS)
  <-> exists key, key ∈ checked_next_to governing /\ is_set kwargs key.
Proof.
  intros Hgov. rewrite (resolver_branch _ _ Hgov).
  rewrite <- check_cli_arguments_none_fails_iff.
  destruct (check_cli_arguments_none_cases kwargs (checked_next_to governing))
    as [Hok|Hfail]; rewrite ?Hok, ?Hfail; cbn [bind]; [|done].
  split; [|discriminate].
  destruct (String.eqb governing "workspace"); [|discriminate].
  unfold kwargs_item. destruct (kwargs !! "workspace") as [item|]; cbn; [|discriminate].
  destruct item; cbn; discriminate.
Qed.

(** X3.  Workspace files given as a tuple of paths, and nothing else that
    the branch checks: the resolver returns the workspace-file target with
    those paths in their order. *)
Theorem resolver_returns_workspace_files kwargs paths :
  kwargs !! "workspace" = Some (VTuple paths) -> paths <> [] ->
  (forall key, key ∈ checked_next_to "workspace" -> ~ is_set kwargs key) ->
  created_workspace_load_target cwd path_exists kwargs
  = inr (WorkspaceFileTarget paths).
Proof.
  intros Hvalue Hpaths Hnone.
  assert (governing_option kwargs = Some "workspace") as Hgov.
  { unfold governing_option, governing_options, kwargs_get. cbn [List.find].
    rewrite Hvalue. cbn. by destruct paths. }
  rewrite (resolver_branch _ _ Hgov).
  apply check_cli_arguments_none_ok_iff in Hnone. rewrite Hnone. cbn [bind].
  unfold kwargs_item. rewrite Hvalue. reflexivity.
Qed.

Lemma invalid_without_governing_option kwargs key :
  governing_option kwargs = None ->
  key ∈ WORKSPACE_CLI_ARGS -> is_set kwargs key ->
  created_workspace_load_target cwd path_exists kwargs
  = inl (UsageError INVALID_CLI_ARGUMENTS).
Proof.
  intros Hgov Hin Hset.
  pose proof (are_all_keys_empty_false kwargs _ key Hin Hset) as Hall.
  unfold governing_option, governing_options in Hgov. cbn [List.find] in Hgov.
  unfold created_workspace_load_target. rewrite Hall.
  repeat match type of Hgov with
         | context [truthy (kwargs_get ?kw ?k)] =>
             destruct (truthy (kwargs_get kw k)) eqn:?
         end;
    try discriminate Hgov; reflexivity.
Qed.

(** X4.  Some recognised option given but none that governs a branch
    (only an attribute, a working directory, the repository yaml or a gRPC
    host, say): the resolver raises the default usage error, whatever the
    empty-workspace flag and the file system say. *)
Theorem resolver_without_governing_option kwargs key :
  governing_option kwargs = None ->
  key ∈ WORKSPACE_CLI_ARGS -> is_set kwargs key ->
  created_workspace_load_target cwd path_exists kwargs
  = inl (UsageError INVALID_CLI_ARGUMENTS).
Proof. apply invalid_without_governing_option. Qed.

(** X5.  Precedence decides the variant.  Every target that the resolver
    returns is the target of the branch of the governing option; without a
    governing option it is the empty target, under the flag, or the default
    workspace file, when that file exists. *)
Theorem resolver_target_by_precedence kwargs target :
  created_workspace_load_target cwd path_exists kwargs = inr target ->
  match governing_option kwargs with
  | Some governing => exists paths, target = target_of_branch cwd kwargs governing paths
  | None =>
      (target = EmptyWorkspaceTarget /\ is_set kwargs "empty_workspace")
      \/ (target = WorkspaceFileTarget ["workspace.yaml"]
          /\ path_exists "workspace.yaml" = true)
  end.
Proof.
  intros Hresult. destruct (governing_option kwargs) as [governing|] eqn:Hgov.
  - rewrite (resolver_branch _ _ Hgov) in Hresult.
    destruct (_check_cli_arguments_none kwargs (checked_next_to governing));
      [discriminate|]. cbn [bind] in Hresult.
    destruct (String.eqb governing "workspace") eqn:Hw.
    + apply String.eqb_eq in Hw. subst governing.
      destruct (kwargs_item kwargs "workspace") as [|item]; [discriminate|].
      cbn [bind] in Hresult.
      destruct (py_list item) as [|paths]; [discriminate|].
      exists paths. by inversion Hresult.
    + exists []. by inversion Hresult.
  - destruct (are_all_keys_empty kwargs WORKSPACE_CLI_ARGS) eqn:Hall.
    + unfold created_workspace_load_target in Hresult. rewrite Hall in Hresult.
      unfold is_set.
      destruct (truthy (kwargs_get kwargs "empty_workspace"));
        [left; by inversion Hresult|].
      destruct (path_exists "workspace.yaml"); [|discriminate].
      right. by inversion Hresult.
    + apply not_true_iff_false in Hall. rewrite are_all_keys_empty_true in Hall.
      exfalso. apply Hall. intros key Hin.
      destruct (truthy (kwargs_get kwargs key)) eqn:Hset; [|done].
      rewrite (invalid_without_governing_option _ key Hgov Hin Hset) in Hresult.
      discriminate Hresult.
Qed.

(** X6.  The resolver reads the recognised target options and the
    empty-workspace flag only: writing any value under another key
    ([repository], [location], [pipeline], ...) leaves its result unchanged. *)
Theorem resolver_ignores_other_keys kwargs key value :
  key ∉ "empty_workspace" :: WORKSPACE_CLI_ARGS ->
  created_workspace_load_target cwd path_exists (<[key:=value]> kwargs)
  = created_workspace_load_target cwd path_exists kwargs.
Proof.
  intros Hnotin.
  assert (key ∉ WORKSPACE_CLI_ARGS) as Hargs
    by (apply not_elem_of_cons in Hnotin; tauto).
  unfold WORKSPACE_CLI_ARGS in Hnotin.
  repeat (apply not_elem_of_cons in Hnotin as [? Hnotin]).
  unfold created_workspace_load_target, get_working_directory_from_kwargs, kwargs_item.
  rewrite are_all_keys_empty_insert_ne by exact Hargs.
  rewrite !check_cli_arguments_none_insert_ne
    by (repeat (apply not_elem_of_cons; split; [done|]); apply not_elem_of_nil).
  rewrite !kwargs_get_insert_ne by done.
  rewrite lookup_insert_ne by done.
  reflexivity.
Qed.

Lemma governing_option_recognised governing :
  governing ∈ governing_options -> governing ∈ WORKSPACE_CLI_ARGS.
Proof.
  unfold governing_options. intros Hin.
  repeat (apply elem_of_cons in Hin as [->|Hin]); [listed ..|].
  by apply elem_of_nil in Hin.
Qed.

(** C9, as the code has it.  The empty-workspace flag next to target
    options.  The flag is read only when no recognised target option is
    given.  So, whatever value the flag has: as soon as one recognised target
    option is given, the result of [created_workspace_load_target] is the
    result for the option map without the flag, an error included; when the
    first given governing option is a python file, a module, a package, a
    gRPC port or a gRPC socket, and none of the options that its branch
    checks is given, the load target of that option is returned; and when
    workspace paths are given and none of the options checked next to them,
    the workspace-file target of those paths is returned. *)
Theorem empty_workspace_flag_ignored kwargs flag :
  (forall key,
     key ∈ WORKSPACE_CLI_ARGS -> is_set kwargs key ->
     created_workspace_load_target cwd path_exists (<["empty_workspace":=flag]> kwargs)
     = created_workspace_load_target cwd path_exists kwargs)
  /\ (forall governing,
        governing_option kwargs = Some governing -> governing <> "workspace" ->
        (forall key, key ∈ checked_next_to governing -> ~ is_set kwargs key) ->
        created_workspace_load_target cwd path_exists (<["empty_workspace":=flag]> kwargs)
        = inr (target_of_branch cwd kwargs governing []))
  /\ (forall paths,
        kwargs !! "workspace" = Some (VTuple paths) -> paths <> [] ->
        (forall key, key ∈ checked_next_to "workspace" -> ~ is_set kwargs key) ->
        created_workspace_load_target cwd path_exists (<["empty_workspace":=flag]> kwargs)
        = inr (WorkspaceFileTarget paths)).
Proof.
  split; [|split].
  - intros key. apply empty_workspace_flag_no_effect.
  - intros governing Hgov Hne Hnone.
    pose proof (governing_option_Some _ _ Hgov) as [Hin Hset].
    rewrite (empty_workspace_flag_no_effect cwd path_exists kwargs governing flag
               (governing_option_recognised _ Hin) Hset).
    rewrite (resolver_branch _ _ Hgov).
    apply check_cli_arguments_none_ok_iff in Hnone. rewrite Hnone. cbn [bind].
    apply String.eqb_neq in Hne. by rewrite Hne.
  - intros paths Hvalue Hpaths Hnone.
    assert (governing_option kwargs = Some "workspace") as Hgov.
    { unfold governing_option, governing_options, kwargs_get. cbn [List.find].
      rewrite Hvalue. cbn. by destruct paths. }
    pose proof (governing_option_Some _ _ Hgov) as [Hin Hset].
    rewrite (empty_workspace_flag_no_effect cwd path_exists kwargs "workspace" flag
               (governing_option_recognised _ Hin) Hset).
    rewrite (resolver_branch _ _ Hgov).
    apply check_cli_arguments_none_ok_iff in Hnone. rewrite Hnone. cbn [bind].
    unfold kwargs_item. rewrite Hvalue. reflexivity.
Qed.

End ResolverBranches.

(** ** Further properties: rendering and dictionaries *)

(** X8.  The rendering of a list of names does not depend on the order in
    which the names come: two lists with the same names, each as often,
    render to the same text. *)
Theorem sorted_quoted_order_insensitive (names names' : list string) :
  names ≡ₚ names' -> _sorted_quoted names = _sorted_quoted names'.
Proof.
  intros Hperm. unfold _sorted_quoted.
  assert (sorted names = sorted names') as ->; [|reflexivity].
  apply (Sorted_unique String.le); [apply sorted_Sorted ..|].
  by rewrite !sorted_Permutation.
Qed.

Lemma foldl_insert_lookup {X V} (key : X -> string) (value : X -> V)
  (xs : list X) (d : gmap string V) name v :
  foldl (fun d x => <[key x := value x]> d) d xs !! name = Some v ->
  d !! name = Some v \/ exists x, x ∈ xs /\ key x = name /\ v = value x.
Proof.
  revert d. induction xs as [|x xs IH]; intros d Hv; [by left|].
  cbn in Hv. apply IH in Hv as [Hv|(y & Hy & Hkey & Hval)].
  - destruct (decide (key x = name)) as [Heq|Hne].
    + rewrite <- Heq, lookup_insert_eq in Hv. inversion Hv.
      right. exists x. split; [by left|done].
    + rewrite lookup_insert_ne in Hv by done. by left.
  - right. exists y. split; [by right|done].
Qed.

Lemma foldl_insert_is_Some {X V} (key : X -> string) (value : X -> V)
  (xs : list X) (d : gmap string V) name :
  is_Some (d !! name) \/ (exists x, x ∈ xs /\ key x = name) ->
  is_Some (foldl (fun d x => <[key x := value x]> d) d xs !! name).
Proof.
  revert d. induction xs as [|y xs IH]; intros d Hname.
  - destruct Hname as [Hd|(x & Hx & _)]; [exact Hd|by apply elem_of_nil in Hx].
  - cbn. apply IH. destruct Hname as [Hd|(x & Hx & Hkey)].
    + left. apply lookup_insert_is_Some.
      destruct (decide (key y = name)); [by left|by right].
    + apply elem_of_cons in Hx as [->|Hx].
      * left. rewrite <- Hkey, lookup_insert_eq. by eexists.
      * right. by exists x.
Qed.

Lemma dict_comprehension_lookup {X V} (key : X -> string) (value : X -> V) xs name v :
  dict_comprehension key value xs !! name = Some v ->
  exists x, x ∈ xs /\ key x = name /\ v = value x.
Proof.
  intros Hv. apply foldl_insert_lookup in Hv as [Hv|Hx]; [|exact Hx].
  by rewrite lookup_empty in Hv.
Qed.

Lemma dict_comprehension_is_Some {X V} (key : X -> string) (value : X -> V) xs name :
  is_Some (dict_comprehension key value xs !! name) <-> exists x, x ∈ xs /\ key x = name.
Proof.
  split.
  - intros [v Hv]. apply dict_comprehension_lookup in Hv as (x & Hx & Hkey & _).
    by exists x.
  - intros Hx. apply foldl_insert_is_Some. by right.
Qed.

Lemma foldl_insert_size {X V} (key : X -> string) (value : X -> V)
  (xs : list X) (d : gmap string V) :
  size (foldl (fun d x => <[key x := value x]> d) d xs) <= size d + length xs.
Proof.
  revert d. induction xs as [|x xs IH]; intros d; cbn; [lia|].
  specialize (IH (<[key x := value x]> d)). rewrite map_size_insert in IH.
  destruct (d !! key x); unfold id in IH; lia.
Qed.

Lemma dict_comprehension_size {X V} (key : X -> string) (value : X -> V) xs :
  size (dict_comprehension key value xs) <= length xs.
Proof.
  unfold dict_comprehension.
  pose proof (foldl_insert_size key value xs ∅) as Hsize.
  rewrite map_size_empty in Hsize. exact Hsize.
Qed.

(** ** Further properties: code pointers and origins *)

Section OriginBuilder.

Variable cwd : string.
Variable path_exists : string -> bool.
Variable sys_executable : string.
Variable py_str : pyval -> string.
Variable TargetDefinition : Type.
Variable repository_def_from_target_def_name : TargetDefinition -> string.
Variable get_loadable_targets :
  pyval -> pyval -> pyval -> pyval -> pyval -> exn + list (LoadableTarget TargetDefinition).

Let repo_name (loadable_target : LoadableTarget TargetDefinition) : string :=
  repository_def_from_target_def_name (target_definition loadable_target).

Let loaded (kwargs : gmap string pyval) : exn + list (LoadableTarget TargetDefinition) :=
  get_loadable_targets (kwargs_get kwargs "python_file") (kwargs_get kwargs "module_name")
                       (kwargs_get kwargs "package_name")
                       (get_working_directory_from_kwargs cwd kwargs)
                       (kwargs_get kwargs "attribute").

Let code_pointers (kwargs : gmap string pyval) : exn + gmap string CodePointer :=
  _get_code_pointer_dict_from_kwargs
    cwd TargetDefinition repository_def_from_target_def_name get_loadable_targets kwargs.

Let origin_of (kwargs : gmap string pyval) : exn + RepositoryPythonOrigin :=
  get_repository_python_origin_from_kwargs
    cwd sys_executable py_str TargetDefinition repository_def_from_target_def_name
    get_loadable_targets kwargs.

(** X9.  The names of the code-pointer dictionary.  When
    [_get_code_pointer_dict_from_kwargs] returns a dictionary, the loader
    returned a list of targets, the keys of the dictionary are exactly the
    repository names that those targets yield, and the dictionary has at
    most as many entries as there are targets. *)
Theorem code_pointer_dict_names kwargs code_pointer_dict :
  code_pointers kwargs = inr code_pointer_dict ->
  exists targets,
    loaded kwargs = inr targets
    /\ (forall name, is_Some (code_pointer_dict !! name)
                     <-> exists target, target ∈ targets /\ repo_name target = name)
    /\ size code_pointer_dict <= length targets.
Proof.
  subst code_pointers loaded repo_name. cbn beta.
  unfold _get_code_pointer_dict_from_kwargs.
  destruct (get_loadable_targets _ _ _ _ _) as [e|targets];
    intros Hresult; revert Hresult; split_options;
    intros Hresult; inversion Hresult; exists targets;
    (split; [reflexivity|split;
       [intros name; apply dict_comprehension_is_Some|apply dict_comprehension_size]]).
Qed.

(** X10.  Conflicts are found before anything is loaded.  Whatever the
    loader does, [_get_code_pointer_dict_from_kwargs] raises the default
    usage error for a python file given with a module or a package, for a
    module given (without a file) with a working directory or a package, and
    for a package given (without file and module) with a working directory;
    with none of the three given it fails the check "Must specify a Python
    file or module name". *)
Theorem code_pointer_dict_rejects_before_loading kwargs :
  (is_set kwargs "python_file" ->
   is_set kwargs "module_name" \/ is_set kwargs "package_name" ->
   code_pointers kwargs = inl (UsageError INVALID_CLI_ARGUMENTS))
  /\ (~ is_set kwargs "python_file" -> is_set kwargs "module_name" ->
      is_set kwargs "working_directory" \/ is_set kwargs "package_name" ->
      code_pointers kwargs = inl (UsageError INVALID_CLI_ARGUMENTS))
  /\ (~ is_set kwargs "python_file" -> ~ is_set kwargs "module_name" ->
      is_set kwargs "package_name" -> is_set kwargs "working_directory" ->
      code_pointers kwargs = inl (UsageError INVALID_CLI_ARGUMENTS))
  /\ (~ is_set kwargs "python_file" -> ~ is_set kwargs "module_name" ->
      ~ is_set kwargs "package_name" ->
      code_pointers kwargs
      = inl (CheckError (Some "Must specify a Python file or module name"))).
Proof.
  subst code_pointers. cbn beta.
  repeat split; intros;
    repeat match goal with
           | H : _ \/ _ |- _ => destruct H
           | H : ~ is_set _ _ |- _ => apply not_set_false in H
           | H : is_set _ _ |- _ => unfold is_set in H
           end;
    unfold _get_code_pointer_dict_from_kwargs; split_options.
Qed.

Lemma code_pointers_need_a_source kwargs code_pointer_dict :
  code_pointers kwargs = inr code_pointer_dict ->
  truthy (kwargs_get kwargs "python_file") || truthy (kwargs_get kwargs "module_name")
  || truthy (kwargs_get kwargs "package_name") = true.
Proof.
  subst code_pointers. cbn beta. unfold _get_code_pointer_dict_from_kwargs.
  destruct (truthy (kwargs_get kwargs "python_file")); [done|].
  destruct (truthy (kwargs_get kwargs "module_name")); [done|].
  destruct (truthy (kwargs_get kwargs "package_name")); [done|].
  discriminate.
Qed.

(** X11.  The origin builder rejects the same combinations on both of its
    paths.  Whatever the attribute and the repository name are, and whatever
    the loader does, [get_repository_python_origin_from_kwargs] raises the
    default usage error for a python file given with a module or a package,
    for a module given (without a file) with a working directory or a
    package, and for a package given (without file and module) with a
    working directory; with none of the three given it raises the usage
    error "Must specify a python file or module name". *)
Theorem origin_rejects_before_loading kwargs :
  (is_set kwargs "python_file" ->
   is_set kwargs "module_name" \/ is_set kwargs "package_name" ->
   origin_of kwargs = inl (UsageError INVALID_CLI_ARGUMENTS))
  /\ (~ is_set kwargs "python_file" -> is_set kwargs "module_name" ->
      is_set kwargs "working_directory" \/ is_set kwargs "package_name" ->
      origin_of kwargs = inl (UsageError INVALID_CLI_ARGUMENTS))
  /\ (~ is_set kwargs "python_file" -> ~ is_set kwargs "module_name" ->
      is_set kwargs "package_name" -> is_set kwargs "working_directory" ->
      origin_of kwargs = inl (UsageError INVALID_CLI_ARGUMENTS))
  /\ (~ is_set kwargs "python_file" -> ~ is_set kwargs "module_name" ->
      ~ is_set kwargs "package_name" ->
      origin_of kwargs = inl (UsageError "Must specify a python file or module name")).
Proof.
  subst origin_of. cbn beta.
  repeat split; intros;
    repeat match goal with
           | H : _ \/ _ |- _ => destruct H
           | H : ~ is_set _ _ |- _ => apply not_set_false in H
           | H : is_set _ _ |- _ => unfold is_set in H
           end;
    unfold get_repository_python_origin_from_kwargs, _get_code_pointer_dict_from_kwargs;
    split_options.
Qed.

(** X12.  Selection of the repository among the code pointers.  When the
    short-circuit does not apply (no attribute, or a repository name given)
    and the dictionary of code pointers is [code_pointer_dict]: without a
    name, the origin of the sole pointer is returned if there is exactly one,
    and otherwise the ambiguity error is raised; with a name, the origin of
    the pointer of that name is returned if there is one, and otherwise the
    not-found error is raised.  Both messages list exactly the names of the
    dictionary, sorted and quoted, and every origin carries [sys.executable]. *)
Theorem origin_selection kwargs code_pointer_dict :
  code_pointers kwargs = inr code_pointer_dict ->
  ~ is_set kwargs "attribute" \/ is_set kwargs "repository" ->
  let provided := kwargs_get kwargs "repository" in
  (forall name pointer,
     provided = VNone -> code_pointer_dict = {[name := pointer]} ->
     origin_of kwargs
     = inr {| executable_path := sys_executable; code_pointer := pointer |})
  /\ (provided = VNone -> size code_pointer_dict <> 1 ->
      exists listed,
        lists_candidates listed code_pointer_dict
        /\ origin_of kwargs
           = inl (UsageError
                    ("Must provide --repository as there is more than one repository. "
                     +:+ "Options are: " +:+ spec_render listed +:+ ".")))
  /\ (forall name pointer,
        provided = VStr name -> code_pointer_dict !! name = Some pointer ->
        origin_of kwargs
        = inr {| executable_path := sys_executable; code_pointer := pointer |})
  /\ (forall name,
        provided = VStr name -> code_pointer_dict !! name = None ->
        exists listed,
          lists_candidates listed code_pointer_dict
          /\ origin_of kwargs
             = inl (UsageError
                      ("Repository " +:+ dq +:+ name +:+ dq +:+ " not found. Found "
                       +:+ spec_render listed +:+ " instead."))).
Proof.
  intros Hdict Hlong provided.
  pose proof (code_pointers_need_a_source _ _ Hdict) as Hsource.
  assert (truthy (kwargs_get kwargs "attribute")
          && negb (truthy (kwargs_get kwargs "repository")) = false) as Hshort.
  { destruct Hlong as [Hattr%not_set_false|Hrepo].
    - by rewrite Hattr.
    - unfold is_set in Hrepo. rewrite Hrepo. apply andb_false_r. }
  assert (origin_of kwargs
          = let* pointer :=
              if is_none provided && Nat.eqb (dict_len code_pointer_dict) 1 then
                dict_first_value code_pointer_dict
              else if is_none provided then
                raise (UsageError
                         ("Must provide --repository as there is more than one repository. "
                          +:+ "Options are: "
                          +:+ _sorted_quoted (dict_keys code_pointer_dict) +:+ "."))
              else if negb (py_in_dict provided code_pointer_dict) then
                raise (UsageError
                         ("Repository " +:+ dq +:+ py_format py_str provided +:+ dq
                          +:+ " not found. Found "
                          +:+ _sorted_quoted (dict_keys code_pointer_dict)
                          +:+ " instead."))
              else py_dict_item py_str code_pointer_dict provided in
            ret {| executable_path := sys_executable; code_pointer := pointer |})
    as ->.
  { subst origin_of code_pointers. cbn beta in *.
    unfold get_repository_python_origin_from_kwargs.
    rewrite Hsource, Hshort, Hdict. reflexivity. }
  split; [|split; [|split]].
  - intros name pointer -> ->. cbn [is_none andb]. unfold dict_len.
    rewrite map_size_singleton. cbn [Nat.eqb]. by rewrite dict_first_value_singleton.
  - intros -> Hsize. cbn [is_none andb]. unfold dict_len.
    apply Nat.eqb_neq in Hsize. rewrite Hsize. cbn [bind raise].
    exists (sorted (dict_keys code_pointer_dict)).
    split; [apply sorted_lists_candidates|]. by rewrite sorted_quoted_render.
  - intros name pointer -> Hpointer. cbn [is_none andb].
    destruct (select_by_name py_str _ _ _ Hpointer) as [-> ->]. reflexivity.
  - intros name -> Hmissing. cbn [is_none andb].
    rewrite (select_by_name_missing _ _ Hmissing). cbn [negb bind raise py_format].
    exists (sorted (dict_keys code_pointer_dict)).
    split; [apply sorted_lists_candidates|]. by rewrite sorted_quoted_render.
Qed.

(** X13.  The origin agrees with the load target.  When the resolver
    returns a python-file, module or package target for an option map that
    gives an attribute and no repository name, the origin builder succeeds on
    the same option map, and its code pointer has the file, attribute and
    working directory (or the module or package and attribute) of the
    target. *)
Theorem origin_agrees_with_target kwargs target pointer :
  created_workspace_load_target cwd path_exists kwargs = inr target ->
  pointer_of_target target = Some pointer ->
  is_set kwargs "attribute" -> ~ is_set kwargs "repository" ->
  origin_of kwargs
  = inr {| executable_path := sys_executable; code_pointer := pointer |}.
Proof.
  intros Hresult Hpointer Hattr Hrepo%not_set_false. unfold is_set in Hattr.
  destruct (governing_option kwargs) as [governing|] eqn:Hgov.
  - rewrite (resolver_branch _ _ _ _ Hgov) in Hresult.
    destruct (_check_cli_arguments_none kwargs (checked_next_to governing)) as [|[]] eqn:Hcheck;
      [discriminate|]. cbn [bind] in Hresult.
    pose proof (proj1 (check_cli_arguments_none_ok_iff _ _) Hcheck) as Hnone.
    assert (forall key, key ∈ checked_next_to governing ->
                        truthy (kwargs_get kwargs key) = false) as Hoff.
    { intros key Hin. apply not_set_false. by apply Hnone. }
    clear Hcheck Hnone.
    unfold governing_option, governing_options in Hgov. cbn [List.find] in Hgov.
    repeat match type of Hgov with
           | context [truthy (kwargs_get ?kw ?k)] =>
               destruct (truthy (kwargs_get kw k)) eqn:?
           end;
      inversion Hgov; subst governing; clear Hgov; cbn in Hresult.
    + destruct (kwargs_item kwargs "workspace") as [|item]; [discriminate|].
      cbn in Hresult. destruct (py_list item); [discriminate|].
      inversion Hresult; subst target. discriminate Hpointer.
    + inversion Hresult; subst target. inversion Hpointer; subst pointer.
      pose proof (Hoff "module_name" ltac:(cbn; listed)).
      pose proof (Hoff "package_name" ltac:(cbn; listed)).
      subst origin_of. cbn beta.
      unfold get_repository_python_origin_from_kwargs. split_options.
    + inversion Hresult; subst target. inversion Hpointer; subst pointer.
      pose proof (Hoff "package_name" ltac:(cbn; listed)).
      pose proof (Hoff "working_directory" ltac:(cbn; listed)).
      subst origin_of. cbn beta.
      unfold get_repository_python_origin_from_kwargs. split_options.
    + inversion Hresult; subst target. inversion Hpointer; subst pointer.
      pose proof (Hoff "working_directory" ltac:(cbn; listed)).
      subst origin_of. cbn beta.
      unfold get_repository_python_origin_from_kwargs. split_options.
    + inversion Hresult; subst target. discriminate Hpointer.
    + inversion Hresult; subst target. discriminate Hpointer.
  - destruct (are_all_keys_empty kwargs WORKSPACE_CLI_ARGS) eqn:Hall.
    + rewrite are_all_keys_empty_true in Hall.
      rewrite (Hall "attribute") in Hattr by listed. discriminate Hattr.
    + rewrite (invalid_without_governing_option cwd path_exists kwargs "attribute")
        in Hresult; [discriminate|exact Hgov|listed|exact Hattr].
Qed.

End OriginBuilder.

(** ** Further properties: the pipeline origin *)

Lemma sorted_lists_names (names : gset string) :
  lists_names (sorted (elements names)) names.
Proof.
  repeat split.
  - rewrite sorted_Permutation. apply elem_of_elements.
  - rewrite sorted_Permutation. apply elem_of_elements.
  - rewrite sorted_Permutation. apply NoDup_elements.
  - apply sorted_Sorted.
Qed.

Lemma set_first_elem_of (names : gset string) name :
  set_first names = inr name -> name ∈ names.
Proof.
  unfold set_first. destruct (elements names) as [|first rest] eqn:Helements;
    [discriminate|].
  intros Hfirst. inversion Hfirst; subst first.
  apply elem_of_elements. rewrite Helements. by left.
Qed.

Lemma py_in_set_true provided (names : gset string) :
  py_in_set provided names = true -> exists name, provided = VStr name /\ name ∈ names.
Proof.
  destruct provided as [| | |name|]; cbn; try discriminate.
  intros Hin%bool_decide_eq_true_1. by exists name.
Qed.

Section PipelineOrigin.

Variable cwd : string.
Variable sys_executable : string.
Variable py_str : pyval -> string.
Variable TargetDefinition : Type.
Variable repository_def_from_target_def_name : TargetDefinition -> string.
Variable get_loadable_targets :
  pyval -> pyval -> pyval -> pyval -> pyval -> exn + list (LoadableTarget TargetDefinition).
Variable get_definition : RepositoryPythonOrigin -> exn + RepositoryDefinition.

Let origin_of (kwargs : gmap string pyval) : exn + RepositoryPythonOrigin :=
  get_repository_python_origin_from_kwargs
    cwd sys_executable py_str TargetDefinition repository_def_from_target_def_name
    get_loadable_targets kwargs.

Let pipeline_origin_of (kwargs : gmap string pyval) : exn + PipelinePythonOrigin :=
  get_pipeline_python_origin_from_kwargs
    cwd sys_executable py_str TargetDefinition repository_def_from_target_def_name
    get_loadable_targets get_definition kwargs.

(** X14.  A pipeline origin names the pipeline that was asked for, or the
    only one.  Every pipeline origin that
    [get_pipeline_python_origin_from_kwargs] returns holds the repository
    origin built from the same option map, and its pipeline name is the name
    of a pipeline of the definition of that repository: the [pipeline] option
    when that option is a name; and when the option is [None], the definition
    has exactly one distinct pipeline name, and it is that one. *)
Theorem pipeline_origin_sound kwargs pipeline_origin :
  pipeline_origin_of kwargs = inr pipeline_origin ->
  exists repo_definition name,
    origin_of kwargs = inr (repository_origin pipeline_origin)
    /\ get_definition (repository_origin pipeline_origin) = inr repo_definition
    /\ origin_pipeline_name pipeline_origin = VStr name
    /\ name ∈ definition_pipeline_names repo_definition
    /\ ((kwargs_get kwargs "pipeline" = VNone
         /\ (list_to_set (definition_pipeline_names repo_definition) : gset string)
            = {[name]})
        \/ kwargs_get kwargs "pipeline" = VStr name).
Proof.
  subst pipeline_origin_of origin_of. cbn beta.
  unfold get_pipeline_python_origin_from_kwargs.
  destruct (get_repository_python_origin_from_kwargs _ _ _ _ _ _ kwargs)
    as [|origin]; [discriminate|]. cbn [bind].
  destruct (get_definition origin) as [|repo_definition] eqn:Hdef; [discriminate|].
  cbn [bind].
  destruct (is_none (kwargs_get kwargs "pipeline")) eqn:Hnone.
  - destruct (kwargs_get kwargs "pipeline"); try discriminate Hnone. cbn [andb].
    destruct (Nat.eqb_spec
                (size (list_to_set (definition_pipeline_names repo_definition)
                       : gset string)) 1) as [Hsize|]; [|discriminate].
    destruct (set_first _) as [|name] eqn:Hfirst; [discriminate|]. cbn.
    intros Hresult. inversion Hresult; subst pipeline_origin. cbn.
    apply set_first_elem_of in Hfirst.
    exists repo_definition, name. repeat split; try done.
    + by apply elem_of_list_to_set in Hfirst.
    + left. split; [done|].
      apply size_1_elem_of in Hsize as [sole Hsole]. apply leibniz_equiv in Hsole.
      rewrite Hsole in Hfirst. apply elem_of_singleton in Hfirst. by subst sole.
  - cbn [andb].
    destruct (py_in_set _ _) eqn:Hin; [|discriminate]. cbn.
    apply py_in_set_true in Hin as (name & Hname & Hin).
    intros Hresult. inversion Hresult; subst pipeline_origin. cbn.
    exists repo_definition, name. repeat split; try done; [|by right].
    by apply elem_of_list_to_set in Hin.
Qed.

(** X15.  Selection of the pipeline of an origin.  With the repository
    origin built and its definition loaded: without a [pipeline] option, the
    origin of the sole pipeline name is returned when the definition has
    exactly one, and otherwise (also when it has none) the ambiguity error is
    raised; with a [pipeline] option, the origin of that pipeline is returned
    when the definition has it, and otherwise the not-found error is raised.
    Both messages list exactly the distinct pipeline names, sorted and
    quoted. *)
Theorem pipeline_origin_selection kwargs origin repo_definition :
  origin_of kwargs = inr origin ->
  get_definition origin = inr repo_definition ->
  let provided := kwargs_get kwargs "pipeline" in
  let pipeline_names : gset string :=
    list_to_set (definition_pipeline_names repo_definition) in
  (forall name,
     provided = VNone -> pipeline_names = {[name]} ->
     pipeline_origin_of kwargs
     = inr {| origin_pipeline_name := VStr name; repository_origin := origin |})
  /\ (provided = VNone -> size pipeline_names <> 1 ->
      exists listed,
        lists_names listed pipeline_names
        /\ pipeline_origin_of kwargs
           = inl (UsageError
                    ("Must provide --pipeline as there is more than one pipeline "
                     +:+ "in " +:+ definition_name repo_definition +:+ ". Options are: "
                     +:+ spec_render listed +:+ ".")))
  /\ (forall name,
        provided = VStr name -> name ∈ definition_pipeline_names repo_definition ->
        pipeline_origin_of kwargs
        = inr {| origin_pipeline_name := VStr name; repository_origin := origin |})
  /\ (forall name,
        provided = VStr name -> name ∉ definition_pipeline_names repo_definition ->
        exists listed,
          lists_names listed pipeline_names
          /\ pipeline_origin_of kwargs
             = inl (UsageError
                      ("Pipeline " +:+ dq +:+ name +:+ dq +:+ " not found in repository "
                       +:+ dq +:+ definition_name repo_definition +:+ dq +:+ ". Found "
                       +:+ spec_render listed +:+ " instead."))).
Proof.
  intros Horigin Hdef provided pipeline_names.
  subst pipeline_origin_of origin_of. cbn beta in *.
  unfold get_pipeline_python_origin_from_kwargs.
  rewrite Horigin. cbn [bind]. rewrite Hdef. cbn [bind].
  fold provided. fold pipeline_names.
  split; [|split; [|split]].
  - intros name -> Hsole. rewrite Hsole. cbn [is_none andb].
    rewrite size_singleton. cbn [Nat.eqb]. unfold set_first.
    rewrite elements_singleton. reflexivity.
  - intros -> Hsize. cbn [is_none andb].
    apply Nat.eqb_neq in Hsize. rewrite Hsize. cbn [bind raise].
    exists (sorted (elements pipeline_names)).
    split; [apply sorted_lists_names|]. by rewrite sorted_quoted_render.
  - intros name -> Hin. cbn [is_none andb py_in_set].
    rewrite bool_decide_eq_true_2 by (by apply elem_of_list_to_set).
    reflexivity.
  - intros name -> Hnotin. cbn [is_none andb py_in_set].
    rewrite bool_decide_eq_false_2
      by (intros Hin; apply Hnotin; by apply elem_of_list_to_set in Hin).
    cbn [negb bind raise py_format].
    exists (sorted (elements pipeline_names)).
    split; [apply sorted_lists_names|]. by rewrite sorted_quoted_render.
Qed.

End PipelineOrigin.

(** ** Further properties: navigation of a workspace *)

Section Selection.

Variable py_str : pyval -> string.

Lemma named_location_returned workspace name location :
  get_repository_location_from_workspace py_str workspace (VStr name) = inr location ->
  workspace_snapshot workspace !! name = Some (LocationLoaded location).
Proof.
  unfold get_repository_location_from_workspace. cbn [is_none bind ret].
  destruct (py_in_list _ _); cbn [negb]; [|discriminate].
  unfold has_repository_location_error, get_repository_location_error,
    get_repository_location.
  destruct (workspace_snapshot workspace !! name) as [[found|error]|];
    cbn; intros Hresult; by inversion Hresult.
Qed.

(** X16.  Location selection by name.  With a location name given,
    [get_repository_location_from_workspace] returns the location of that
    name when the workspace has it and it has loaded, and raises the
    not-found error, listing exactly the location names sorted and quoted,
    when the workspace has no location of that name (also when the workspace
    is empty). *)
Theorem location_selection_by_name workspace name :
  (forall location,
     workspace_snapshot workspace !! name = Some (LocationLoaded location) ->
     get_repository_location_from_workspace py_str workspace (VStr name) = inr location)
  /\ (workspace_snapshot workspace !! name = None ->
      exists listed,
        lists_candidates listed (workspace_snapshot workspace)
        /\ get_repository_location_from_workspace py_str workspace (VStr name)
           = inl (UsageError
                    ("Location " +:+ dq +:+ name +:+ dq
                     +:+ " not found in workspace. Found " +:+ spec_render listed
                     +:+ " instead."))).
Proof.
  unfold get_repository_location_from_workspace, repository_location_names.
  cbn [is_none bind ret py_in_list]. split.
  - intros location Hloaded.
    rewrite bool_decide_eq_true_2
      by (apply (elem_of_dict_keys (workspace_snapshot workspace)); by eexists).
    cbn [negb].
    unfold has_repository_location_error, get_repository_location_error,
      get_repository_location.
    rewrite Hloaded. reflexivity.
  - intros Hmissing.
    rewrite bool_decide_eq_false_2.
    + cbn [negb raise py_format].
      exists (sorted (dict_keys (workspace_snapshot workspace))).
      split; [apply sorted_lists_candidates|]. by rewrite sorted_quoted_render.
    + intros Hin. apply (elem_of_dict_keys (workspace_snapshot workspace)) in Hin.
      rewrite Hmissing in Hin. by destruct Hin.
Qed.

(** X17.  Only a loaded location of the workspace is returned.  Every
    location that [get_repository_location_from_workspace] returns is the
    loaded location stored in the workspace under some name, which is the
    name given or, without a name, the name of the only location. *)
Theorem location_selection_sound workspace provided location :
  get_repository_location_from_workspace py_str workspace provided = inr location ->
  exists name,
    workspace_snapshot workspace !! name = Some (LocationLoaded location)
    /\ (provided = VStr name
        \/ (provided = VNone /\ size (workspace_snapshot workspace) = 1)).
Proof.
  intros Hresult. destruct provided as [| | |name|].
  - destruct (decide (size (workspace_snapshot workspace) = 1)) as [Hsize|Hsize].
    + destruct (dict_size_1 _ Hsize) as (name & entry & Hsnap).
      rewrite (sole_location_selected py_str _ _ _ Hsnap) in Hresult.
      exists name. split; [by apply named_location_returned|by right].
    + exfalso. revert Hresult.
      unfold get_repository_location_from_workspace, repository_location_names.
      pose proof (length_dict_keys (workspace_snapshot workspace)) as Hlen.
      unfold dict_keys in Hlen. cbn [is_none].
      destruct (Nat.eqb_spec (length (map_to_list (workspace_snapshot workspace)).*1) 1);
        [lia|].
      destruct (Nat.eqb (length (map_to_list (workspace_snapshot workspace)).*1) 0);
        discriminate.
  - discriminate Hresult.
  - discriminate Hresult.
  - exists name. split; [by apply named_location_returned|by left].
  - discriminate Hresult.
Qed.

(** X18.  Repository selection without a name.  With no repository name
    given, [get_external_repository_from_repo_location] returns the sole
    repository of a location that has exactly one, raises the ambiguity
    error, listing exactly the repository names sorted and quoted, for a
    location that has more than one, and fails the invariant check for a
    location that has none. *)
Theorem repository_selection_without_name repo_location :
  let repo_dict := get_repositories repo_location in
  (forall name repo,
     repo_dict = {[name := repo]} ->
     get_external_repository_from_repo_location py_str repo_location VNone = inr repo)
  /\ (1 < size repo_dict ->
      exists listed,
        lists_candidates listed repo_dict
        /\ get_external_repository_from_repo_location py_str repo_location VNone
           = inl (UsageError
                    ("Must provide --repository as there is more than one repository "
                     +:+ "in " +:+ location_name repo_location +:+ ". Options are: "
                     +:+ spec_render listed +:+ ".")))
  /\ (repo_dict = ∅ ->
      get_external_repository_from_repo_location py_str repo_location VNone
      = inl (CheckError (Some "There should be at least one repo."))).
Proof.
  intros repo_dict.
  unfold get_external_repository_from_repo_location. fold repo_dict.
  cbn [check_opt_str_param bind ret is_none andb]. split; [|split].
  - intros name repo ->. unfold dict_len. rewrite map_size_singleton. cbn.
    apply dict_first_value_singleton.
  - intros Hsize. unfold dict_len.
    destruct (Nat.eqb_spec (size repo_dict) 0); [lia|].
    destruct (Nat.eqb_spec (size repo_dict) 1); [lia|].
    cbn [negb check_invariant bind ret raise].
    exists (sorted (dict_keys repo_dict)).
    split; [apply sorted_lists_candidates|]. by rewrite sorted_quoted_render.
  - intros ->. reflexivity.
Qed.

(** X19.  Pipeline selection without a name.  The candidates are the
    pipelines of the repository keyed by name.  With no pipeline name given,
    [get_external_pipeline_from_external_repo] returns the sole candidate
    when there is exactly one, raises the ambiguity error, listing exactly
    the pipeline names sorted and quoted, when there is more than one, and
    fails the invariant check for a repository without pipelines. *)
Theorem pipeline_selection_without_name external_repo :
  let external_pipelines :=
    dict_comprehension pipeline_name (fun ep => ep)
                       (get_all_external_pipelines external_repo) in
  (forall name pipeline,
     external_pipelines = {[name := pipeline]} ->
     get_external_pipeline_from_external_repo py_str external_repo VNone = inr pipeline)
  /\ (1 < size external_pipelines ->
      exists listed,
        lists_candidates listed external_pipelines
        /\ get_external_pipeline_from_external_repo py_str external_repo VNone
           = inl (UsageError
                    ("Must provide --pipeline as there is more than one pipeline "
                     +:+ "in " +:+ repository_name external_repo +:+ ". Options are: "
                     +:+ spec_render listed +:+ ".")))
  /\ (get_all_external_pipelines external_repo = [] ->
      get_external_pipeline_from_external_repo py_str external_repo VNone
      = inl (CheckError None)).
Proof.
  intros external_pipelines.
  unfold get_external_pipeline_from_external_repo. fold external_pipelines.
  cbn [check_opt_str_param bind ret is_none andb]. split; [|split].
  - intros name pipeline ->. unfold dict_len. rewrite map_size_singleton. cbn.
    apply dict_first_value_singleton.
  - intros Hsize. unfold dict_len.
    destruct (Nat.eqb_spec (size external_pipelines) 0); [lia|].
    destruct (Nat.eqb_spec (size external_pipelines) 1); [lia|].
    cbn [negb check_invariant bind ret raise].
    exists (sorted (dict_keys external_pipelines)).
    split; [apply sorted_lists_candidates|]. by rewrite sorted_quoted_render.
  - intros Hnil. subst external_pipelines. rewrite Hnil. reflexivity.
Qed.

(** X20.  A name that is neither [None] nor a string is refused first.  For
    such a value the selection of a repository and the selection of a
    pipeline fail the parameter check, naming the parameter, before the
    candidates are looked at: also for a location without repositories and
    a repository without pipelines. *)
Theorem selection_refuses_other_values repo_location external_repo provided :
  provided <> VNone -> (forall name, provided <> VStr name) ->
  get_external_repository_from_repo_location py_str repo_location provided
  = inl (CheckError (Some "provided_repo_name"))
  /\ get_external_pipeline_from_external_repo py_str external_repo provided
     = inl (CheckError (Some "provided_pipeline_name")).
Proof.
  intros Hnone Hstr.
  unfold get_external_repository_from_repo_location,
    get_external_pipeline_from_external_repo.
  destruct provided as [| | |name|]; try done. by destruct (Hstr name).
Qed.

Lemma first_value_lookup {V} (d : gmap string V) v :
  dict_len d = 1 -> dict_first_value d = inr v ->
  exists name, d = {[name := v]}.
Proof.
  intros Hsize Hfirst. destruct (dict_size_1 _ Hsize) as (name & found & ->).
  rewrite dict_first_value_singleton in Hfirst. inversion Hfirst. by exists name.
Qed.

Lemma selected_from_dict {V} (d : gmap string V) provided v (many not_found : exn) :
  (if is_none provided && Nat.eqb (dict_len d) 1 then dict_first_value d
   else if is_none provided then raise many
   else if negb (py_in_dict provided d) then raise not_found
   else py_dict_item py_str d provided) = inr v ->
  exists name,
    d !! name = Some v
    /\ (provided = VStr name \/ (provided = VNone /\ d = {[name := v]})).
Proof.
  destruct provided as [| | |name|]; cbn [is_none andb py_in_dict negb];
    try discriminate.
  - destruct (Nat.eqb_spec (dict_len d) 1) as [Hsize|]; [|discriminate].
    intros Hfirst. destruct (first_value_lookup _ _ Hsize Hfirst) as [name ->].
    exists name. split; [apply lookup_singleton_eq|by right].
  - destruct (bool_decide _); cbn [negb]; [|discriminate].
    unfold py_dict_item, dict_item. destruct (d !! name) eqn:Hname; [|discriminate].
    intros Hresult. inversion Hresult; subst. exists name. split; [done|by left].
Qed.

(** X21.  Only a candidate is returned.  Every repository that
    [get_external_repository_from_repo_location] returns is the repository
    stored in the location under the name given or, without a name, the only
    repository of the location; every pipeline that
    [get_external_pipeline_from_external_repo] returns is one of the
    pipelines of the repository and, when a name is given, has that name. *)
Theorem selection_sound repo_location external_repo provided :
  (forall repo,
     get_external_repository_from_repo_location py_str repo_location provided = inr repo ->
     exists name,
       get_repositories repo_location !! name = Some repo
       /\ (provided = VStr name
           \/ (provided = VNone /\ get_repositories repo_location = {[name := repo]})))
  /\ (forall pipeline,
        get_external_pipeline_from_external_repo py_str external_repo provided
        = inr pipeline ->
        pipeline ∈ get_all_external_pipelines external_repo
        /\ (provided = VNone \/ provided = VStr (pipeline_name pipeline))).
Proof.
  split.
  - intros repo. unfold get_external_repository_from_repo_location,
      has_repository, get_repository.
    destruct (check_opt_str_param _ _); [discriminate|]. cbn [bind].
    destruct (check_invariant _ _); [discriminate|]. cbn [bind].
    apply selected_from_dict.
  - intros pipeline. unfold get_external_pipeline_from_external_repo.
    destruct (check_opt_str_param _ _); [discriminate|]. cbn [bind].
    destruct (check_invariant _ _); [discriminate|]. cbn [bind].
    intros Hselected. apply selected_from_dict in Hselected as (name & Hname & Hprov).
    apply dict_comprehension_lookup in Hname as (found & Hin & Hkey & ->).
    split; [exact Hin|]. destruct Hprov as [->|[-> _]]; [right|by left].
    by rewrite Hkey.
Qed.

(** X22.  Of several pipelines of one name the last is the candidate.
    When the pipelines of a repository are [before ++ pipeline :: after] and
    no pipeline of [after] has the name of [pipeline],
    [get_external_pipeline_from_external_repo] returns [pipeline] for that
    name, whatever [before] contains. *)
Theorem pipeline_selection_last_of_name external_repo before pipeline after :
  get_all_external_pipelines external_repo = (before ++ pipeline :: after)%list ->
  (forall later, later ∈ after -> pipeline_name later <> pipeline_name pipeline) ->
  get_external_pipeline_from_external_repo
    py_str external_repo (VStr (pipeline_name pipeline))
  = inr pipeline.
Proof.
  intros Hall Hlast.
  pose proof (dict_comprehension_last pipeline_name (fun ep => ep)
                before pipeline after Hlast) as Hlookup.
  unfold get_external_pipeline_from_external_repo. rewrite Hall.
  cbn [check_opt_str_param bind ret].
  rewrite dict_len_non_empty
    by (apply dict_comprehension_non_empty; by destruct before).
  cbn [negb check_invariant bind ret is_none andb].
  destruct (select_by_name py_str _ _ _ Hlookup) as [-> ->]. reflexivity.
Qed.

End Selection.

Section NavigationFromOptions.

Variable cwd : string.
Variable path_exists : string -> bool.
Variable py_str : pyval -> string.
Variable create_request_context : WorkspaceLoadTarget -> exn + WorkspaceRequestContext.


End NavigationFromOptions.

(** ** The further properties at sample inputs *)

Ltac unset_next_to Hin :=
  vm_compute in Hin;
  repeat (apply elem_of_cons in Hin as [->|Hin]);
  [ vm_compute; discriminate .. | by apply elem_of_nil in Hin ].

Lemma resolver_returns_branch_target_witness :
  created_workspace_load_target Sample.cwd Sample.no_file
    (kwargs_of [("grpc_socket", VStr "/tmp/dagster.sock"); ("grpc_host", VStr "example.org")])
  = inr (GrpcServerTarget VNone (VStr "/tmp/dagster.sock") (VStr "example.org") VNone).
Proof.
  refine (resolver_returns_branch_target Sample.cwd Sample.no_file
            (kwargs_of [("grpc_socket", VStr "/tmp/dagster.sock");
                        ("grpc_host", VStr "example.org")])
            "grpc_socket" _ _ _).
  - vm_compute. reflexivity.
  - discriminate.
  - intros key Hin. unset_next_to Hin.
Defined.

Lemma resolver_rejects_exactly_witness :
  created_workspace_load_target Sample.cwd Sample.no_file
    (kwargs_of [("python_file", VStr "repo.py"); ("grpc_host", VStr "example.org")])
  = inl (UsageError INVALID_CLI_ARGUMENTS).
Proof.
  apply (proj2 (resolver_rejects_exactly Sample.cwd Sample.no_file
                  (kwargs_of [("python_file", VStr "repo.py");
                              ("grpc_host", VStr "example.org")])
                  "python_file" ltac:(vm_compute; reflexivity))).
  exists "grpc_host". split; [vm_compute; listed|vm_compute; reflexivity].
Defined.

Lemma resolver_returns_workspace_files_witness :
  created_workspace_load_target Sample.cwd Sample.no_file
    (kwargs_of [("workspace", VTuple ["b.yaml"; "a.yaml"]); ("location", VStr "loc1")])
  = inr (WorkspaceFileTarget ["b.yaml"; "a.yaml"]).
Proof.
  apply resolver_returns_workspace_files.
  - vm_compute. reflexivity.
  - discriminate.
  - intros key Hin. unset_next_to Hin.
Defined.

Lemma resolver_without_governing_option_witness :
  created_workspace_load_target Sample.cwd Sample.no_file
    (kwargs_of [("repository_yaml", VStr "repository.yaml");
                ("empty_workspace", VBool true)])
  = inl (UsageError INVALID_CLI_ARGUMENTS).
Proof.
  apply (resolver_without_governing_option _ _ _ "repository_yaml").
  - vm_compute. reflexivity.
  - listed.
  - vm_compute. reflexivity.
Defined.

Lemma resolver_target_by_precedence_witness :
  exists paths,
    PythonFileTarget (VStr "repo.py") (VStr "my_repo") VNone VNone
    = target_of_branch Sample.cwd
        (kwargs_of [("python_file", VStr "repo.py"); ("attribute", VStr "my_repo");
                    ("empty_working_directory", VBool true)])
        "python_file" paths.
Proof.
  exact (resolver_target_by_precedence Sample.cwd Sample.no_file
           (kwargs_of [("python_file", VStr "repo.py"); ("attribute", VStr "my_repo");
                       ("empty_working_directory", VBool true)])
           (PythonFileTarget (VStr "repo.py") (VStr "my_repo") VNone VNone)
           ltac:(vm_compute; reflexivity)).
Defined.

Lemma resolver_ignores_other_keys_witness :
  created_workspace_load_target Sample.cwd Sample.no_file
    (<["repository" := VStr "r2"]> (kwargs_of [("module_name", VStr "pkg.defs")]))
  = inr (ModuleTarget (VStr "pkg.defs") VNone VNone).
Proof.
  rewrite (resolver_ignores_other_keys Sample.cwd Sample.no_file).
  - vm_compute. reflexivity.
  - unfold WORKSPACE_CLI_ARGS. not_listed.
Defined.

Lemma sorted_quoted_order_insensitive_witness :
  _sorted_quoted ["r2"; "r1"] = _sorted_quoted ["r1"; "r2"].
Proof. apply sorted_quoted_order_insensitive. apply perm_swap. Defined.

Lemma code_pointer_dict_names_witness :
  exists targets,
    Sample.duplicate_loader (VStr "repo.py") VNone VNone (VStr Sample.cwd) VNone
    = inr targets
    /\ (forall name,
          is_Some (Sample.main_repo_pointers !! name)
          <-> exists target, target ∈ targets /\ target_definition target = name)
    /\ size Sample.main_repo_pointers <= length targets.
Proof.
  exact (code_pointer_dict_names Sample.cwd string (fun name => name)
           Sample.duplicate_loader (kwargs_of [("python_file", VStr "repo.py")])
           Sample.main_repo_pointers ltac:(vm_compute; reflexivity)).
Defined.

(** The repository [r2] of a module that exposes [r1] and [r2]. *)
Lemma origin_selection_witness :
  get_repository_python_origin_from_kwargs
    Sample.cwd Sample.executable Sample.py_str string (fun name => name)
    Sample.two_repo_loader
    (kwargs_of [("module_name", VStr "pkg.defs"); ("repository", VStr "r2")])
  = inr {| executable_path := Sample.executable;
           code_pointer := ModuleCodePointer (VStr "pkg.defs") (VStr "second") |}.
Proof.
  apply (proj1 (proj2 (proj2
           (origin_selection Sample.cwd Sample.executable Sample.py_str string
              (fun name => name) Sample.two_repo_loader
              (kwargs_of [("module_name", VStr "pkg.defs"); ("repository", VStr "r2")])
              Sample.module_pointers
              ltac:(vm_compute; reflexivity)
              ltac:(right; vm_compute; reflexivity)))) "r2").
  - vm_compute. reflexivity.
  - vm_compute. reflexivity.
Defined.

(** The same module without a repository name. *)
Example origin_ambiguity_message :
  get_repository_python_origin_from_kwargs
    Sample.cwd Sample.executable Sample.py_str string (fun name => name)
    Sample.two_repo_loader (kwargs_of [("module_name", VStr "pkg.defs")])
  = inl (UsageError
           ("Must provide --repository as there is more than one repository. "
            +:+ "Options are: ['r1', 'r2'].")).
Proof. vm_compute. reflexivity. Qed.

Lemma origin_agrees_with_target_witness :
  get_repository_python_origin_from_kwargs
    Sample.cwd Sample.executable Sample.py_str string (fun name => name)
    Sample.broken_loader
    (kwargs_of [("python_file", VStr "repo.py"); ("attribute", VStr "my_repo")])
  = inr {| executable_path := Sample.executable;
           code_pointer :=
             FileCodePointer (VStr "repo.py") (VStr "my_repo") (VStr Sample.cwd) |}.
Proof.
  apply (origin_agrees_with_target Sample.cwd Sample.no_file Sample.executable
           Sample.py_str string (fun name => name) Sample.broken_loader
           (kwargs_of [("python_file", VStr "repo.py"); ("attribute", VStr "my_repo")])
           (PythonFileTarget (VStr "repo.py") (VStr "my_repo") (VStr Sample.cwd) VNone)).
  - vm_compute. reflexivity.
  - reflexivity.
  - vm_compute. reflexivity.
  - vm_compute. discriminate.
Defined.

Lemma pipeline_origin_sound_witness :
  exists repo_definition name,
    get_repository_python_origin_from_kwargs
      Sample.cwd Sample.executable Sample.py_str string (fun name => name)
      Sample.broken_loader
      (kwargs_of [("module_name", VStr "pkg.defs"); ("attribute", VStr "my_repo");
                  ("pipeline", VStr "train")])
    = inr {| executable_path := Sample.executable;
             code_pointer := ModuleCodePointer (VStr "pkg.defs") (VStr "my_repo") |}
    /\ Sample.two_pipelines
         {| executable_path := Sample.executable;
            code_pointer := ModuleCodePointer (VStr "pkg.defs") (VStr "my_repo") |}
       = inr repo_definition
    /\ VStr "train" = VStr name
    /\ name ∈ definition_pipeline_names repo_definition
    /\ ((kwargs_get
           (kwargs_of [("module_name", VStr "pkg.defs"); ("attribute", VStr "my_repo");
                       ("pipeline", VStr "train")]) "pipeline" = VNone
         /\ (list_to_set (definition_pipeline_names repo_definition) : gset string)
            = {[name]})
        \/ kwargs_get
             (kwargs_of [("module_name", VStr "pkg.defs"); ("attribute", VStr "my_repo");
                         ("pipeline", VStr "train")]) "pipeline" = VStr name).
Proof.
  exact (pipeline_origin_sound Sample.cwd Sample.executable Sample.py_str string
           (fun name => name) Sample.broken_loader Sample.two_pipelines
           (kwargs_of [("module_name", VStr "pkg.defs"); ("attribute", VStr "my_repo");
                       ("pipeline", VStr "train")])
           {| origin_pipeline_name := VStr "train";
              repository_origin :=
                {| executable_path := Sample.executable;
                   code_pointer :=
                     ModuleCodePointer (VStr "pkg.defs") (VStr "my_repo") |} |}
           ltac:(vm_compute; reflexivity)).
Defined.

(** A pipeline that the repository does not have. *)
Lemma pipeline_origin_selection_witness :
  exists listed,
    lists_names listed (list_to_set ["train"; "ingest"])
    /\ get_pipeline_python_origin_from_kwargs
         Sample.cwd Sample.executable Sample.py_str string (fun name => name)
         Sample.broken_loader Sample.two_pipelines
         (kwargs_of [("module_name", VStr "pkg.defs"); ("attribute", VStr "my_repo");
                     ("pipeline", VStr "deploy")])
       = inl (UsageError
                ("Pipeline " +:+ dq +:+ "deploy" +:+ dq +:+ " not found in repository "
                 +:+ dq +:+ "main_repo" +:+ dq +:+ ". Found " +:+ spec_render listed
                 +:+ " instead.")).
Proof.
  apply (proj2 (proj2 (proj2
           (pipeline_origin_selection Sample.cwd Sample.executable Sample.py_str string
              (fun name => name) Sample.broken_loader Sample.two_pipelines
              (kwargs_of [("module_name", VStr "pkg.defs"); ("attribute", VStr "my_repo");
                          ("pipeline", VStr "deploy")])
              {| executable_path := Sample.executable;
                 code_pointer := ModuleCodePointer (VStr "pkg.defs") (VStr "my_repo") |}
              {| definition_name := "main_repo";
                 definition_pipeline_names := ["train"; "ingest"] |}
              ltac:(vm_compute; reflexivity) ltac:(reflexivity)))) "deploy").
  - vm_compute. reflexivity.
  - cbn. intros Hin. repeat (apply elem_of_cons in Hin as [Hin|Hin]; [discriminate Hin|]).
    by apply elem_of_nil in Hin.
Defined.

(** A repository without pipelines is reported as having more than one. *)
Example pipeline_origin_without_pipelines :
  get_pipeline_python_origin_from_kwargs
    Sample.cwd Sample.executable Sample.py_str string (fun name => name)
    Sample.broken_loader Sample.no_pipelines
    (kwargs_of [("module_name", VStr "pkg.defs"); ("attribute", VStr "my_repo")])
  = inl (UsageError
           ("Must provide --pipeline as there is more than one pipeline in main_repo. "
            +:+ "Options are: [].")).
Proof. vm_compute. reflexivity. Qed.

Lemma location_selection_sound_witness :
  exists name,
    workspace_snapshot Sample.sole_workspace !! name
    = Some (LocationLoaded Sample.two_repositories)
    /\ (VNone = VStr name
        \/ (VNone = VNone /\ size (workspace_snapshot Sample.sole_workspace) = 1)).
Proof.
  exact (location_selection_sound Sample.py_str Sample.sole_workspace VNone
           Sample.two_repositories ltac:(vm_compute; reflexivity)).
Defined.

Lemma selection_refuses_other_values_witness :
  get_external_repository_from_repo_location
    Sample.py_str Sample.no_repository (VInt 7)
  = inl (CheckError (Some "provided_repo_name"))
  /\ get_external_pipeline_from_external_repo Sample.py_str Sample.repo_r2 (VInt 7)
     = inl (CheckError (Some "provided_pipeline_name")).
Proof.
  apply selection_refuses_other_values; [discriminate|]. intros name. discriminate.
Defined.

Lemma pipeline_selection_last_of_name_witness :
  get_external_pipeline_from_external_repo
    Sample.py_str Sample.repo_twice_train (VStr "train")
  = inr {| pipeline_name := "train"; pipeline_handle := "r3.train#2" |}.
Proof.
  apply (pipeline_selection_last_of_name Sample.py_str Sample.repo_twice_train
           [ {| pipeline_name := "train"; pipeline_handle := "r3.train#1" |} ]
           {| pipeline_name := "train"; pipeline_handle := "r3.train#2" |} []).
  - reflexivity.
  - intros later Hin. by apply elem_of_nil in Hin.
Defined.

(** The flag next to a python file leaves the python-file target, and the
    flag next to a module with a stray working directory leaves the error. *)
Lemma empty_workspace_flag_ignored_witness :
  created_workspace_load_target Sample.cwd Sample.no_file
    (<["empty_workspace" := VBool true]> (kwargs_of [("python_file", VStr "repo.py")]))
  = inr (PythonFileTarget (VStr "repo.py") VNone (VStr Sample.cwd) VNone)
  /\ created_workspace_load_target Sample.cwd Sample.no_file
       (<["empty_workspace" := VBool true]>
          (kwargs_of [("module_name", VStr "pkg.defs"); ("working_directory", VStr "/tmp")]))
     = inl (UsageError INVALID_CLI_ARGUMENTS).
Proof.
  split.
  - refine (proj1 (proj2 (empty_workspace_flag_ignored Sample.cwd Sample.no_file
                            (kwargs_of [("python_file", VStr "repo.py")]) (VBool true)))
              "python_file" _ _ _).
    + vm_compute. reflexivity.
    + discriminate.
    + intros key Hin. unset_next_to Hin.
  - rewrite (proj1 (empty_workspace_flag_ignored Sample.cwd Sample.no_file
                      (kwargs_of [("module_name", VStr "pkg.defs");
                                  ("working_directory", VStr "/tmp")]) (VBool true))
               "module_name").
    + vm_compute. reflexivity.
    + listed.
    + vm_compute. reflexivity.
Defined.

(** C9 as stated fails: the gRPC host is a recognised target option, and
    with the empty-workspace flag next to it no load target is returned, the
    default usage error is raised. *)
Lemma empty_workspace_flag_with_host_alone :
  created_workspace_load_target Sample.cwd Sample.no_file
    (kwargs_of [("empty_workspace", VBool true); ("grpc_host", VStr "example.org")])
  = inl (UsageError INVALID_CLI_ARGUMENTS)
  /\ ~ (exists target,
          created_workspace_load_target Sample.cwd Sample.no_file
            (kwargs_of [("empty_workspace", VBool true);
                        ("grpc_host", VStr "example.org")])
          = inr target).
Proof.
  split; [vm_compute; reflexivity|].
  intros [target Htarget]. vm_compute in Htarget. discriminate Htarget.
Qed.

